(** * starclass: the base stellar classifier ([starclass/BaseClassifier.py])

    A shallow embedding of [BaseClassifier]: the classification contract
    ([classify]), label resolution ([parse_labels]), the test harness
    ([test]) and the feature loader with its on-disk cache ([load_star],
    [calc_features]).

    Python exceptions are values of [exn]; code that touches the file
    system, the persistence callback or the logger runs in a state and
    exception monad over [World].  Python dictionaries keep insertion order
    and are association lists.  A float is a finite value (an exact
    rational), an infinity or [nan]; the comparisons are the ones the source
    writes, with the meaning Python gives them: a comparison with [nan] is
    false. *)

From Stdlib Require Import QArith.
From stdpp Require Import base decidable option list strings pretty gmap.

Set Default Proof Using "Type".
Local Open Scope string_scope.
Local Open Scope list_scope.

(** ** Status indicator ([class STATUS(enum.Enum)]) *)

Inductive STATUS :=
| UNKNOWN
| STARTED
| OK
| ERROR
| WARNING
| ABORT
| SKIPPED.

Definition STATUS_value (s : STATUS) : Z :=
  match s with
  | UNKNOWN => 0
  | STARTED => 6
  | OK => 1
  | ERROR => 2
  | WARNING => 3
  | ABORT => 4
  | SKIPPED => 5
  end%Z.

(** ** Floats *)

Inductive pyfloat :=
| Finite (q : Q)
| PosInf
| NegInf
| NaN.

(** [x < y] on finite values *)
Definition Qltb (x y : Q) : bool :=
  (Qnum x * QDen y <? Qnum y * QDen x)%Z.

(** [x < y]: false as soon as [x] or [y] is [nan]. *)
Definition float_ltb (x y : pyfloat) : bool :=
  match x, y with
  | NaN, _ => false
  | _, NaN => false
  | Finite a, Finite b => Qltb a b
  | Finite _, PosInf => true
  | Finite _, NegInf => false
  | PosInf, _ => false
  | NegInf, NegInf => false
  | NegInf, _ => true
  end.

(** [x > y] *)
Definition float_gtb (x y : pyfloat) : bool := float_ltb y x.

Arguments float_gtb : simpl never.

(** ** Classification level and classifier variants *)

Inductive Level := L1 | L2.

Definition level_str (l : Level) : string :=
  match l with L1 => "L1" | L2 => "L2" end.

(** The class names [__init__] knows; [self.__class__.__name__]. *)
Inductive Variant :=
| BaseClassifier
| RFGCClassifier
| SLOSHClassifier
| XGBClassifier
| MetaClassifier.

(** The table of [__init__] that gives [self.classifier_key]. *)
Definition classifier_key_of (v : Variant) : string :=
  match v with
  | BaseClassifier => "base"
  | RFGCClassifier => "rfgc"
  | SLOSHClassifier => "slosh"
  | XGBClassifier => "xgb"
  | MetaClassifier => "meta"
  end.

(** ** What the module imports

    [StellarClasses] and [StellarClassesLevel2] are enumerations of
    [starclass/StellarClasses.py]; the source names six members of the first
    one and iterates over it.  Light curves, power spectra and the tables
    read by numpy are objects of external libraries. *)

Class Domain := {
  StellarClasses : Type;
  StellarClasses_eq_dec :: EqDecision StellarClasses;
  (** [for lbl in StellarClasses]: the members in definition order. *)
  StellarClasses_members : list StellarClasses;
  ECLIPSE : StellarClasses;
  RRLYR_CEPHEID : StellarClasses;
  CONTACT_ROT : StellarClasses;
  DSCT_BCEP : StellarClasses;
  GDOR_SPB : StellarClasses;
  SOLARLIKE : StellarClasses;
  StellarClassesLevel2 : Type;
  StellarClassesLevel2_eq_dec :: EqDecision StellarClassesLevel2;
  (** The type of the [.value] of a member, compared with [==]. *)
  Value : Type;
  Value_eq_dec :: EqDecision Value;
  value_L1 : StellarClasses -> Value;
  value_L2 : StellarClassesLevel2 -> Value;
  LightCurve : Type;
  PowerSpectrum : Type;
  NDArray : Type;
  (** Any other Python object carried through unchanged. *)
  PyObject : Type;
}.

Section Model.
Context `{Dom : Domain}.

(** A member of one of the two enumerations: the keys of a classification
    result and the entries of a ground-truth label list.  A member of the
    other enumeration is the foreign key of the model; the test
    [key in self.StellarClasses] on an object that is no enumeration member
    depends on the Python version and is left out. *)
Inductive Label :=
| InL1 (c : StellarClasses)
| InL2 (c : StellarClassesLevel2).

#[export] Instance Label_eq_dec : EqDecision Label.
Proof. solve_decision. Defined.

(** [lbl.value] *)
Definition value (l : Label) : Value :=
  match l with
  | InL1 c => value_L1 c
  | InL2 c => value_L2 c
  end.

(** [key in self.StellarClasses], where [self.StellarClasses] is
    [{'L1': StellarClasses, 'L2': StellarClassesLevel2}[level]]. *)
Definition in_StellarClasses (level : Level) (key : Label) : bool :=
  match level, key with
  | L1, InL1 _ => true
  | L2, InL2 _ => true
  | _, _ => false
  end.

(** ** Python values and dictionaries *)

Inductive pyval :=
| PInt (z : Z)
| PFloat (x : pyfloat)
| PStr (s : string)
| PStatus (s : STATUS)
| PProbs (d : list (Label * pyfloat))
| PLightCurve (lc : LightCurve)
| PPowerSpectrum (psd : PowerSpectrum)
| PObject (o : PyObject).

(** A [dict] with string keys, in insertion order. *)
Local Abbreviation pydict := (list (string * pyval)).

(** [d[k]] read; [None] stands for [KeyError]. *)
Fixpoint dict_get (d : pydict) (k : string) : option pyval :=
  match d with
  | [] => None
  | (k', v) :: d' => if String.eqb k' k then Some v else dict_get d' k
  end.

(** [d[k] = v]: an existing key keeps its position. *)
Fixpoint dict_set (d : pydict) (k : string) (v : pyval) : pydict :=
  match d with
  | [] => [(k, v)]
  | (k', v') :: d' =>
      if String.eqb k' k then (k', v) :: d' else (k', v') :: dict_set d' k v
  end.

(** [d.update(other)] *)
Definition dict_update (d other : pydict) : pydict :=
  fold_left (fun acc kv => dict_set acc (fst kv) (snd kv)) other d.

(** [k in d.keys()] *)
Definition dict_has (d : pydict) (k : string) : bool :=
  match dict_get d k with Some _ => true | None => false end.

Definition dict_keys (d : pydict) : list string := map fst d.

(** Truth value of a dictionary: [not features] is [dict_is_empty]. *)
Definition dict_is_empty (d : pydict) : bool :=
  match d with [] => true | _ => false end.

(** ** Exceptions *)

Inductive exn :=
(** [ValueError("Classifier returned unknown stellar class: '%s'" % key)] *)
| UnknownClass (key : Label)
(** [ValueError("Classifier should return probability between 0 and 1.")] *)
| InvalidProbability
(** [ValueError("Invalid file format")] *)
| InvalidFormat
| NotImplementedError
| KeyError (k : string)
| IndexError
(** calling [None] *)
| TypeError
(** [max()] of an empty sequence *)
| EmptySequence
(** scikit-learn: inconsistent numbers of samples *)
| LengthMismatch
(** scikit-learn: ['labels' should contains at least one label.] *)
| NoLabels
(** scikit-learn: [At least one label specified must be in y_true] *)
| NoLabelInYTrue
| UnboundLocalError
(** an exception raised inside an external routine *)
| ExternalError (code : nat).

Inductive result (A : Type) :=
| Ok (a : A)
| Raise (e : exn).
Arguments Ok {A} a.
Arguments Raise {A} e.

(** ** The world the classifier acts on *)

(** Modelled from the spec: [plotConfMatrix] of [starclass/plots.py] draws
    the matrix with its labels into the figure, which is then given a title
    and saved.  The diagnostic image written by [test]. *)
Record Figure := {
  fig_title : string;
  fig_matrix : list (list nat);
  fig_labels : list Value;
}.

Inductive Event :=
| EvDoClassify (features : pydict)
| EvSaveFunc (res : pydict)
| EvLoadTxt (fname : string)
| EvFitsOpen (fname : string)
| EvExists (path : string)
| EvLoadPickle (path : string)
| EvSavePickle (path : string)
| EvCalcFeatures
| EvSaveFig (path : string)
| EvLogInfoNoTest
| EvLogAccuracy (percent : option Q)
| EvLogDebug (d : pydict).

Record World := {
  (** the pickled bundles on disk, by path *)
  cache : gmap string pydict;
  (** the images on disk, by path *)
  figures : gmap string Figure;
  (** the records handed to [save_func], oldest first *)
  saved : list pydict;
  (** everything done, oldest first *)
  trace : list Event;
}.

Definition M (A : Type) : Type := World -> World * result A.

Definition ret {A} (a : A) : M A := fun w => (w, Ok a).

Definition raise {A} (e : exn) : M A := fun w => (w, Raise e).

Definition bind {A B} (m : M A) (f : A -> M B) : M B :=
  fun w =>
    match m w with
    | (w', Ok a) => f a w'
    | (w', Raise e) => (w', Raise e)
    end.

Definition lift {A} (r : result A) : M A := fun w => (w, r).

Definition emit (e : Event) : M unit :=
  fun w =>
    ({| cache := cache w; figures := figures w; saved := saved w;
        trace := trace w ++ [e] |}, Ok tt).

End Model.

Abbreviation pydict := (list (string * pyval)).

Notation "x <- m ;; k" := (bind m (fun x => k))
  (at level 100, m at next level, right associativity).
Notation "m ;;; k" := (bind m (fun _ => k))
  (at level 100, right associativity).

Arguments Ok {Dom A} a.
Arguments Raise {Dom A} e.

(** ** The classifier object and its collaborators *)

(** The attributes [__init__] stores, and the [do_classify] of the
    subclass ([BaseClassifier.do_classify] raises [NotImplementedError]). *)
Record Classifier `{Dom : Domain} := {
  variant : Variant;
  tset_key : option string;
  plot : bool;
  level : Level;
  features_cache : option string;
  data_dir : string;
  do_classify : pydict -> result (list (Label * pyfloat));
}.

(** A [TrainingSet]: what [test] reads of it. *)
Record TrainingSet `{Dom : Domain} := {
  testfraction : Q;
  key : string;
  features_test : list pydict;
  labels_test : Level -> list (list Label);
}.

(** The routines of numpy, lightkurve, astropy and [starclass.features]
    that [load_star] and [calc_features] call, and the builtin [str]. *)
Class External `{Dom : Domain} := {
  (** [np.loadtxt(fname)] *)
  np_loadtxt : string -> result NDArray;
  (** [data.shape] *)
  ndarray_shape : NDArray -> list nat;
  (** [data[:,j]] where the array has a column [j] *)
  ndarray_column : NDArray -> nat -> NDArray;
  (** [np.asarray(a, dtype='int32')] *)
  np_asarray_int32 : NDArray -> NDArray;
  (** [np.zeros(n, dtype='int32')] *)
  np_zeros_int32 : nat -> NDArray;
  (** [TessLightCurve(time=, flux=, flux_err=, quality=, targetid=)] with
      the constant arguments of the text branch: [time_format='jd'],
      [time_scale='tdb'], [camera=1], [ccd=1], [sector=2],
      [quality_bitmask=2+8+256], [meta={}] *)
  TessLightCurve : NDArray -> NDArray -> NDArray -> NDArray -> pyval
                   -> result LightCurve;
  (** [fits.open(fname)] and the [TessLightCurve] built from its HDUs *)
  TessLightCurve_of_fits : string -> result LightCurve;
  (** [lightcurve.remove_nans()] *)
  remove_nans : LightCurve -> result LightCurve;
  powerspectrum : LightCurve -> result PowerSpectrum;
  freqextr : LightCurve -> result pydict;
  FliPer : PowerSpectrum -> result pydict;
  (** [str(x)] *)
  py_str : pyval -> string;
}.

Section Classify.
Context `{Dom : Domain}.

Definition classifier_key (self : Classifier) : string :=
  classifier_key_of (variant self).

(** The loop of [classify] over [res.items()]. *)
Fixpoint check_results (lvl : Level) (items : list (Label * pyfloat))
  : result unit :=
  match items with
  | [] => Ok tt
  | (key, value) :: rest =>
      if negb (in_StellarClasses lvl key) then Raise (UnknownClass key)
      else if float_ltb value (Finite 0) || float_gtb value (Finite 1) then
        Raise InvalidProbability
      else check_results lvl rest
  end.

(** [BaseClassifier.do_classify], to be overwritten by the subclasses. *)
Definition do_classify_base (features : pydict)
  : result (list (Label * pyfloat)) :=
  Raise NotImplementedError.

Definition classify (self : Classifier) (features : pydict)
  : M (list (Label * pyfloat)) :=
  emit (EvDoClassify features) ;;;
  res <- lift (do_classify self features) ;;
  lift (check_results (level self) res) ;;;
  ret res.

(** ** Label resolution *)

(** [StellarClasses.X in lbl] *)
Definition has_class (c : StellarClasses) (lbl : list Label) : bool :=
  bool_decide (InL1 c ∈ lbl).

(** [lbl[0].value] *)
Definition first_value (lbl : list Label) : result Value :=
  match lbl with
  | [] => Raise IndexError
  | l0 :: _ => Ok (value l0)
  end.

(** The body of the loop of [parse_labels]: what is appended for [lbl]. *)
Definition parse_label (lbl : list Label) : result Value :=
  if (1 <? length lbl)%nat then
    if has_class ECLIPSE lbl then Ok (value (InL1 ECLIPSE))
    else if has_class RRLYR_CEPHEID lbl then Ok (value (InL1 RRLYR_CEPHEID))
    else if has_class CONTACT_ROT lbl then Ok (value (InL1 CONTACT_ROT))
    else if has_class DSCT_BCEP lbl then Ok (value (InL1 DSCT_BCEP))
    else if has_class GDOR_SPB lbl then Ok (value (InL1 GDOR_SPB))
    else if has_class SOLARLIKE lbl then Ok (value (InL1 SOLARLIKE))
    else first_value lbl
  else first_value lbl.

Fixpoint parse_labels_loop (labels : list (list Label)) (fitlabels : list Value)
  : result (list Value) :=
  match labels with
  | [] => Ok fitlabels
  | lbl :: rest =>
      match parse_label lbl with
      | Ok v => parse_labels_loop rest (fitlabels ++ [v])
      | Raise e => Raise e
      end
  end.

Definition parse_labels (labels : list (list Label)) : result (list Value) :=
  parse_labels_loop labels [].

(** ** The test harness *)

(** [max(d, key=lambda key: d[key])]: the keys of a dictionary are
    distinct, so [d[key]] is the value of the item of [key]; [max] keeps the
    first item and replaces it by a later one only when [later > kept]
    holds, which it never does when one of the two is [nan]. *)
Fixpoint max_from (best : Label * pyfloat) (items : list (Label * pyfloat))
  : Label * pyfloat :=
  match items with
  | [] => best
  | kv :: rest =>
      max_from (if float_gtb (snd kv) (snd best) then kv else best) rest
  end.

Definition py_max (d : list (Label * pyfloat)) : result Label :=
  match d with
  | [] => Raise EmptySequence
  | kv :: rest => Ok (fst (max_from kv rest))
  end.

(** [sklearn.metrics.accuracy_score(y_true, y_pred)]: the fraction of
    samples whose two labels are equal; [None] is the [nan] that the mean of
    no sample gives. *)
Definition count_equal (y_true y_pred : list Value) : nat :=
  length (filter (fun p => bool_decide (fst p = snd p)) (zip y_true y_pred)).

Definition accuracy_score (y_true y_pred : list Value) : result (option Q) :=
  if negb (length y_true =? length y_pred)%nat then Raise LengthMismatch
  else
    match y_true with
    | [] => Ok None
    | _ :: _ =>
        Ok (Some (Z.of_nat (count_equal y_true y_pred)
                  # Pos.of_nat (length y_true)))
    end.

(** [acc*100] *)
Definition percent (acc : option Q) : option Q :=
  match acc with
  | Some q => Some (q * 100)%Q
  | None => None
  end.

(** [sklearn.metrics.confusion_matrix(y_true, y_pred, labels=labels)]:
    row [i], column [j] counts the samples whose true label is [labels[i]]
    and whose prediction is [labels[j]]. *)
Definition count_pair (y_true y_pred : list Value) (t p : Value) : nat :=
  length (filter (fun s => bool_decide (fst s = t) && bool_decide (snd s = p))
                 (zip y_true y_pred)).

Definition confusion_matrix (y_true y_pred labels : list Value)
  : result (list (list nat)) :=
  if negb (length y_true =? length y_pred)%nat then Raise LengthMismatch
  else
    match labels, y_true with
    | [], _ => Raise NoLabels
    | _ :: _, [] => Ok (map (fun _ => map (fun _ => 0%nat) labels) labels)
    | _ :: _, _ :: _ =>
        if negb (existsb (fun t => bool_decide (t ∈ labels)) y_true)
        then Raise NoLabelInYTrue
        else Ok (map (fun t =>
                        map (fun p => count_pair y_true y_pred t p) labels)
                   labels)
    end.

(** [os.path.join(a, b)] on POSIX *)
Definition os_path_join (a b : string) : string :=
  if String.prefix "/" b then b
  else if String.eqb a "" then b
  else if String.eqb (String.substring (String.length a - 1) 1 a) "/" then a +:+ b
  else a +:+ "/" +:+ b.

(** [save_func(res)]: [Some tt] is a callback that stores the record,
    [None] is the default argument. *)
Definition call_save_func (save_func : option unit) (res : pydict) : M unit :=
  match save_func with
  | None => raise TypeError
  | Some _ =>
      fun w =>
        ({| cache := cache w; figures := figures w;
            saved := saved w ++ [res];
            trace := trace w ++ [EvSaveFunc res] |}, Ok tt)
  end.

(** [fig.savefig(path)] *)
Definition savefig (path : string) (fig : Figure) : M unit :=
  fun w =>
    ({| cache := cache w; figures := <[path := fig]> (figures w);
        saved := saved w; trace := trace w ++ [EvSaveFig path] |}, Ok tt).

Definition getitem (d : pydict) (k : string) : result pyval :=
  match dict_get d k with
  | Some v => Ok v
  | None => Raise (KeyError k)
  end.

Fixpoint result_map {A B} (f : A -> result B) (l : list A) : result (list B) :=
  match l with
  | [] => Ok []
  | x :: l' =>
      match f x with
      | Ok y =>
          match result_map f l' with
          | Ok ys => Ok (y :: ys)
          | Raise e => Raise e
          end
      | Raise e => Raise e
      end
  end.

(** The loop of [test] over [zip(tset.features_test(), tset.labels_test())]. *)
Fixpoint test_loop (self : Classifier) (save : bool) (save_func : option unit)
    (pairs : list (pydict * list Label)) (y_pred : list Value)
  : M (list Value) :=
  match pairs with
  | [] => ret y_pred
  | (features, labels) :: rest =>
      priority <- lift (getitem features "priority") ;;
      let res := [("priority", priority);
                  ("classifier", PStr (classifier_key self));
                  ("status", PStatus OK)] in
      probs <- classify self features ;;
      let res := dict_set res "starclass_results" (PProbs probs) in
      best <- lift (py_max probs) ;;
      let prediction := value best in
      let y_pred := y_pred ++ [prediction] in
      (if save then emit (EvLogDebug res) ;;; call_save_func save_func res
       else ret tt) ;;;
      test_loop self save save_func rest y_pred
  end.

Definition test (self : Classifier) (tset : TrainingSet)
    (save : bool) (save_func : option unit) : M unit :=
  if Qle_bool (testfraction tset) 0 then
    emit EvLogInfoNoTest ;;;
    ret tt
  else
    let all_classes := map (fun lbl => value (InL1 lbl)) StellarClasses_members in
    y_pred <- test_loop self save save_func
                (zip (features_test tset) (labels_test tset (level self))) [] ;;
    labels_test <- lift (result_map first_value (labels_test tset (level self))) ;;
    acc <- lift (accuracy_score labels_test y_pred) ;;
    emit (EvLogAccuracy (percent acc)) ;;;
    cf <- lift (confusion_matrix labels_test y_pred all_classes) ;;
    savefig
      (os_path_join (data_dir self)
         ("confusion_matrix_" +:+ key tset +:+ "_" +:+ level_str (level self)
            +:+ "_" +:+ classifier_key self +:+ ".png"))
      {| fig_title := classifier_key self +:+ " - " +:+ key tset +:+ " - "
                        +:+ level_str (level self);
         fig_matrix := cf;
         fig_labels := all_classes |}.

End Classify.

(** ** The feature loader and its cache *)

Section Loader.
Context `{Ext : External}.

(** [s.endswith(suffix)] *)
Definition endswith (s suffix : string) : bool :=
  (String.length suffix <=? String.length s)%nat
  && String.eqb
       (String.substring (String.length s - String.length suffix)
          (String.length suffix) s)
       suffix.

(** Truth value of [self.features_cache]: neither [None] nor empty. *)
Definition cache_enabled (self : Classifier) : bool :=
  match features_cache self with
  | Some dir => negb (String.eqb dir "")
  | None => false
  end.

Definition cache_dir (self : Classifier) : string :=
  match features_cache self with
  | Some dir => dir
  | None => ""
  end.

(** [os.path.exists(path)] for a path of the cache *)
Definition os_path_exists (path : string) : M bool :=
  fun w =>
    ({| cache := cache w; figures := figures w; saved := saved w;
        trace := trace w ++ [EvExists path] |},
     Ok (bool_decide (is_Some (cache w !! path)))).

(** Modelled from the spec: [loadPickle] of [starclass/utilities.py], which
    reads back the bundle that was saved under the path. *)
Definition loadPickle (path : string) : M pydict :=
  fun w =>
    let w' := {| cache := cache w; figures := figures w; saved := saved w;
                 trace := trace w ++ [EvLoadPickle path] |} in
    match cache w !! path with
    | Some d => (w', Ok d)
    | None => (w', Raise (ExternalError 0))
    end.

(** Modelled from the spec: [savePickle] of [starclass/utilities.py], a
    whole-bundle replacement of the file at the path. *)
Definition savePickle (path : string) (d : pydict) : M unit :=
  fun w =>
    ({| cache := <[path := d]> (cache w); figures := figures w;
        saved := saved w; trace := trace w ++ [EvSavePickle path] |}, Ok tt).

Definition calc_features (lightcurve : LightCurve) : M pydict :=
  emit EvCalcFeatures ;;;
  let features := [] in
  let features := dict_set features "lightcurve" (PLightCurve lightcurve) in
  lc <- lift (remove_nans lightcurve) ;;
  psd <- lift (powerspectrum lc) ;;
  let features := dict_set features "powerspectrum" (PPowerSpectrum psd) in
  fe <- lift (freqextr lightcurve) ;;
  let features := dict_update features fe in
  fl <- lift (FliPer psd) ;;
  let features := dict_update features fl in
  ret features.

(** [t[i]] on a tuple *)
Definition tuple_getitem (t : list nat) (i : nat) : result nat :=
  match t !! i with
  | Some n => Ok n
  | None => Raise IndexError
  end.

(** [data[:,j]]: an index error when the array has fewer than two
    dimensions or no column [j]. *)
Definition column (data : NDArray) (j : nat) : result NDArray :=
  match ndarray_shape data with
  | _ :: ncols :: _ =>
      if (j <? ncols)%nat then Ok (ndarray_column data j) else Raise IndexError
  | _ => Raise IndexError
  end.

(** The text branch after [np.loadtxt]: the quality column, then the
    arguments of [TessLightCurve] in the order they are written. *)
Definition lightcurve_of_table (task : pydict) (data : NDArray)
  : M LightCurve :=
  ncols <- lift (tuple_getitem (ndarray_shape data) 1) ;;
  quality <- (if (ncols =? 4)%nat then
                col <- lift (column data 3) ;;
                ret (np_asarray_int32 col)
              else
                nrows <- lift (tuple_getitem (ndarray_shape data) 0) ;;
                ret (np_zeros_int32 nrows)) ;;
  time <- lift (column data 0) ;;
  flux <- lift (column data 1) ;;
  flux_err <- lift (column data 2) ;;
  targetid <- lift (getitem task "starid") ;;
  lift (TessLightCurve time flux flux_err quality targetid).

(** The dispatch on the suffix of [fname] that builds [lightcurve]. *)
Definition load_lightcurve (task : pydict) (fname : string) : M LightCurve :=
  if endswith fname ".noisy" || endswith fname ".sysnoise"
     || endswith fname ".txt" || endswith fname ".clean" then
    emit (EvLoadTxt fname) ;;;
    data <- lift (np_loadtxt fname) ;;
    lightcurve_of_table task data
  else if endswith fname ".fits" || endswith fname ".fits.gz" then
    emit (EvFitsOpen fname) ;;;
    lift (TessLightCurve_of_fits fname)
  else
    raise InvalidFormat.

(** The tuple of keys copied from the task. *)
Definition task_keys : list string :=
  ["tmag"; "variance"; "rms_hour"; "ptp"; "other_classifiers"].

Definition copy_task_keys (task features : pydict) : pydict :=
  fold_left
    (fun features key =>
       match dict_get task key with
       | Some v => dict_set features key v
       | None => features
       end)
    task_keys features.

(** [features_file] is [None] while the variable is unbound. *)
Definition load_star (self : Classifier) (task : pydict) (fname : string)
  : M pydict :=
  let features : pydict := [] in
  let save_to_cache := false in
  st <- (if negb (String.eqb (classifier_key self) "meta") then
           lightcurve <- load_lightcurve task fname ;;
           cached <- (if cache_enabled self then
                        priority <- lift (getitem task "priority") ;;
                        let features_file :=
                          os_path_join (cache_dir self)
                            ("features-" +:+ py_str priority +:+ ".pickle") in
                        found <- os_path_exists features_file ;;
                        if found then
                          loaded <- loadPickle features_file ;;
                          ret (loaded, Some features_file)
                        else ret (features, Some features_file)
                      else ret (features, None)) ;;
           let '(features, features_file) := cached in
           if dict_is_empty features then
             computed <- calc_features lightcurve ;;
             emit (EvLogDebug computed) ;;;
             ret (computed, true, features_file)
           else ret (features, save_to_cache, features_file)
         else ret (features, save_to_cache, None)) ;;
  let '(features, save_to_cache, features_file) := st in
  priority <- lift (getitem task "priority") ;;
  let features := dict_set features "priority" priority in
  starid <- lift (getitem task "starid") ;;
  let features := dict_set features "starid" starid in
  let features := copy_task_keys task features in
  (if save_to_cache && cache_enabled self then
     match features_file with
     | Some path => savePickle path features
     | None => raise UnboundLocalError
     end
   else ret tt) ;;;
  ret features.

End Loader.

(** ** Construction ([__init__]) *)

(** What [__init__] raises. *)
Inductive init_exn :=
(** [assert level in ('L1', 'L2'), "Invalid level"] *)
| InvalidLevel
(** [ValueError("features_cache directory does not exists")] *)
| MissingCacheDirectory
(** the [KeyError] of the table of classifier keys *)
| UnknownClassName (name : string).

(** The path routines of [os.path] that [__init__] needs. *)
Class OS := {
  (** [os.path.dirname(__file__)] *)
  module_dir : string;
  (** [os.path.abspath(path)] *)
  abspath : string -> string;
  (** the ancestors of a path, which [os.makedirs] creates with it *)
  ancestors : string -> list string;
}.

Section Construction.
Context `{Dom : Domain} `{Sys : OS}.

(** [level in ('L1', 'L2')], and the level it names *)
Definition level_of_string (level : string) : option Level :=
  if String.eqb level "L1" then Some L1
  else if String.eqb level "L2" then Some L2
  else None.

(** The keys of the table of [__init__]. *)
Definition variant_of_name (name : string) : option Variant :=
  if String.eqb name "BaseClassifier" then Some BaseClassifier
  else if String.eqb name "RFGCClassifier" then Some RFGCClassifier
  else if String.eqb name "SLOSHClassifier" then Some SLOSHClassifier
  else if String.eqb name "XGBClassifier" then Some XGBClassifier
  else if String.eqb name "MetaClassifier" then Some MetaClassifier
  else None.

(** [os.makedirs(path, exist_ok=True)] on the set of existing directories *)
Definition makedirs (path : string) (dirs : gset string) : gset string :=
  dirs ∪ list_to_set (path :: ancestors path).

(** [os.path.exists(path)]; the empty path does not exist. *)
Definition dir_exists (path : string) (dirs : gset string) : bool :=
  negb (String.eqb path "") && bool_decide (path ∈ dirs).

(** The value given to [self.data_dir]. *)
Definition data_dir_of (tset_key : option string) (level : string) : string :=
  match tset_key with
  | Some k =>
      abspath (os_path_join
                 (os_path_join (os_path_join module_dir "data") level) k)
  | None => abspath (os_path_join (os_path_join module_dir "data") level)
  end.

(** [__init__] of the class named [class_name], whose [do_classify] is
    [method]; [dirs] are the paths that exist. *)
Definition init (class_name : string)
    (method : pydict -> result (list (Label * pyfloat)))
    (tset_key features_cache : option string) (level : string) (plot : bool)
    (dirs : gset string)
  : gset string * (init_exn + Classifier) :=
  match level_of_string level with
  | None => (dirs, inl InvalidLevel)
  | Some lvl =>
      let data_dir := data_dir_of tset_key level in
      let dirs := makedirs data_dir dirs in
      if match features_cache with
         | Some dir => negb (dir_exists dir dirs)
         | None => false
         end
      then (dirs, inl MissingCacheDirectory)
      else
        match variant_of_name class_name with
        | None => (dirs, inl (UnknownClassName class_name))
        | Some v =>
            (dirs,
             inr {| variant := v; tset_key := tset_key; plot := plot;
                    level := lvl; features_cache := features_cache;
                    data_dir := data_dir; do_classify := method |})
        end
  end.

End Construction.

(** ** A small instance on which the model runs

    An eight-class base taxonomy, a three-class refined one, string values,
    and stub numerics. *)

Module Demo.

Inductive SC :=
| solar | eclipse | rrlyr_ceph | gdor_spb | dsct_bcep | contact_rot
| aperiodic | constant.

Inductive SC2 := solar2 | rrlyr2 | cepheid2.

#[export] Instance SC_eq_dec : EqDecision SC.
Proof. solve_decision. Defined.

#[export] Instance SC2_eq_dec : EqDecision SC2.
Proof. solve_decision. Defined.

Definition SC_value (c : SC) : string :=
  match c with
  | solar => "solar-like"
  | eclipse => "eclipse"
  | rrlyr_ceph => "RRLyr/Ceph"
  | gdor_spb => "gamma-Dor/SPB"
  | dsct_bcep => "dSct/bCep"
  | contact_rot => "contact/rot"
  | aperiodic => "aperiodic"
  | constant => "constant"
  end.

Definition SC2_value (c : SC2) : string :=
  match c with
  | solar2 => "solar-like"
  | rrlyr2 => "RRLyr"
  | cepheid2 => "Ceph"
  end.

#[export] Instance domain : Domain := {|
  StellarClasses := SC;
  StellarClasses_members :=
    [solar; eclipse; rrlyr_ceph; gdor_spb; dsct_bcep; contact_rot;
     aperiodic; constant];
  ECLIPSE := eclipse;
  RRLYR_CEPHEID := rrlyr_ceph;
  CONTACT_ROT := contact_rot;
  DSCT_BCEP := dsct_bcep;
  GDOR_SPB := gdor_spb;
  SOLARLIKE := solar;
  StellarClassesLevel2 := SC2;
  Value := string;
  value_L1 := SC_value;
  value_L2 := SC2_value;
  LightCurve := nat;
  PowerSpectrum := nat;
  NDArray := nat;
  PyObject := nat;
|}.

Definition str (v : pyval) : string :=
  match v with
  | PInt z => pretty z
  | PStr s => s
  | _ => "object"
  end.

(** An array is known by its number of columns and has two rows; a light
    curve is known by the table it was built from. *)
#[export] Instance external : External := {|
  np_loadtxt := fun _ => Ok 4%nat;
  ndarray_shape := fun data => [2; data]%nat;
  ndarray_column := fun data _ => data;
  np_asarray_int32 := fun a => a;
  np_zeros_int32 := fun _ => 0%nat;
  TessLightCurve := fun time _ _ _ _ => Ok time;
  TessLightCurve_of_fits := fun _ => Ok 7%nat;
  remove_nans := fun lc => Ok lc;
  powerspectrum := fun lc => Ok (S lc);
  freqextr := fun _ => Ok [("freq1", PFloat (Finite (3 # 2)))];
  FliPer := fun _ => Ok [("Fp07", PFloat (Finite (1 # 5)))];
  py_str := str;
|}.

Definition world0 : World :=
  {| cache := ∅; figures := ∅; saved := []; trace := [] |}.

Definition solar_probs : list (Label * pyfloat) :=
  [(InL1 eclipse, Finite 0); (InL1 solar, Finite 1)].

(** A variant that always answers class A = [solar] with probability 1 and
    [eclipse] with probability 0. *)
Definition always_solar : Classifier :=
  {| variant := RFGCClassifier; tset_key := Some "demo"; plot := false;
     level := L1; features_cache := Some "/cache"; data_dir := "/data/L1/demo";
     do_classify := fun _ => Ok solar_probs |}.

(** A variant at level [lvl] that answers every bundle with [probs]. *)
Definition answering (lvl : Level) (probs : list (Label * pyfloat))
  : Classifier :=
  {| variant := XGBClassifier; tset_key := None; plot := false;
     level := lvl; features_cache := None; data_dir := "/data";
     do_classify := fun _ => Ok probs |}.

Definition foreign_probs : list (Label * pyfloat) :=
  [(InL1 solar, Finite (1 # 2)); (InL2 rrlyr2, Finite (1 # 4))].

Definition large_probs : list (Label * pyfloat) :=
  [(InL1 solar, Finite (3 # 2)); (InL2 rrlyr2, Finite (1 # 4))].

Definition negative_probs : list (Label * pyfloat) :=
  [(InL1 solar, Finite (1 # 2)); (InL1 eclipse, Finite (-1 # 10))].

Definition meta : Classifier :=
  {| variant := MetaClassifier; tset_key := None; plot := false;
     level := L1; features_cache := Some "/cache"; data_dir := "/data/L1";
     do_classify := fun _ => Raise NotImplementedError |}.

Definition task17 : pydict :=
  [("priority", PInt 17); ("starid", PInt 4255);
   ("tmag", PFloat (Finite (21 # 2)));
   ("lightcurve", PStr "star4255.noisy"); ("ptp", PFloat (Finite (1 # 3)))].

Definition bundle (priority : Z) : pydict :=
  [("freq1", PFloat (Finite (1 # 2))); ("priority", PInt priority)].

(** Ground truth [A, B, A] with A = [solar], B = [eclipse]. *)
Definition tset3 : TrainingSet :=
  {| testfraction := 1 # 5; key := "demo";
     features_test := [bundle 1; bundle 2; bundle 3];
     labels_test := fun _ => [[InL1 solar]; [InL1 eclipse]; [InL1 solar]] |}.

Definition tset0 : TrainingSet :=
  {| testfraction := 0; key := "demo";
     features_test := [bundle 1];
     labels_test := fun _ => [[InL1 solar]] |}.

(** What the stub numerics compute for the light curve of [task17]. *)
Definition computed17 : pydict :=
  [("lightcurve", PLightCurve 4%nat); ("powerspectrum", PPowerSpectrum 5%nat);
   ("freq1", PFloat (Finite (3 # 2))); ("Fp07", PFloat (Finite (1 # 5)))].

(** The cache holds a bundle for priority 17. *)
Definition world_cached : World :=
  {| cache := {[ "/cache/features-17.pickle" := bundle 17 ]};
     figures := ∅; saved := []; trace := [] |}.

(** The cache holds an empty bundle for priority 17. *)
Definition world_empty_bundle : World :=
  {| cache := {[ "/cache/features-17.pickle" := [] ]};
     figures := ∅; saved := []; trace := [] |}.

(** A refined-level variant and a split whose ground truth follows the
    level. *)
Definition refined : Classifier :=
  answering L2 [(InL2 solar2, Finite 1); (InL2 rrlyr2, Finite 0)].

Definition tset_refined : TrainingSet :=
  {| testfraction := 1 # 2; key := "demo";
     features_test := [bundle 1; bundle 2];
     labels_test := fun lvl =>
       match lvl with
       | L1 => [[InL1 solar]; [InL1 rrlyr_ceph]]
       | L2 => [[InL2 solar2]; [InL2 rrlyr2]]
       end |}.

(** A tie between the two last classes. *)
Definition tied_probs : list (Label * pyfloat) :=
  [(InL1 eclipse, Finite (1 # 4)); (InL1 solar, Finite (1 # 2));
   (InL1 rrlyr_ceph, Finite (1 # 2))].

(** The cache holds a bundle for priority 17 that was saved with another
    priority and magnitude. *)
Definition stale_bundle : pydict :=
  [("freq1", PFloat (Finite (1 # 2))); ("priority", PInt 99);
   ("tmag", PFloat (Finite 0)); ("variance", PFloat (Finite (7 # 2)))].

Definition world_stale : World :=
  {| cache := {[ "/cache/features-17.pickle" := stale_bundle ]};
     figures := ∅; saved := []; trace := [] |}.

(** Another variant on the same cache and data directories. *)
Definition slosh : Classifier :=
  {| variant := SLOSHClassifier; tset_key := Some "demo"; plot := false;
     level := L1; features_cache := Some "/cache"; data_dir := "/data/L1/demo";
     do_classify := fun _ => Raise NotImplementedError |}.

Definition task_without_priority : pydict :=
  [("starid", PInt 4255); ("tmag", PFloat (Finite (21 # 2)))].

(** Numerics whose table reader fails. *)
Definition unreadable : External :=
  {| np_loadtxt := fun _ => Raise (ExternalError 2);
     ndarray_shape := fun data => [2; data]%nat;
     ndarray_column := fun data _ => data;
     np_asarray_int32 := fun a => a;
     np_zeros_int32 := fun _ => 0%nat;
     TessLightCurve := fun time _ _ _ _ => Ok time;
     TessLightCurve_of_fits := fun _ => Ok 7%nat;
     remove_nans := fun lc => Ok lc;
     powerspectrum := fun lc => Ok (S lc);
     freqextr := fun _ => Ok [("freq1", PFloat (Finite (3 # 2)))];
     FliPer := fun _ => Ok [("Fp07", PFloat (Finite (1 # 5)))];
     py_str := str |}.

(** A variant that answers the star of priority 2 against the contract. *)
Definition picky : Classifier :=
  {| variant := XGBClassifier; tset_key := Some "demo"; plot := false;
     level := L1; features_cache := None; data_dir := "/data/L1/demo";
     do_classify := fun features =>
       match dict_get features "priority" with
       | Some (PInt 2) => Ok large_probs
       | _ => Ok solar_probs
       end |}.

Definition mixed_entries : list (list Label) :=
  [[InL1 gdor_spb; InL1 solar]; [InL2 rrlyr2]].

Definition refined_entry : list Label := [InL2 rrlyr2; InL2 solar2].

Definition solar_eclipse : list Label := [InL1 solar; InL1 eclipse].

Definition eclipse_solar : list Label := [InL1 eclipse; InL1 solar].

(** An answer whose only value is [nan]. *)
Definition nan_probs : list (Label * pyfloat) := [(InL1 solar, NaN)].

(** An answer with [nan] for the first class and one half for the second. *)
Definition nan_first_probs : list (Label * pyfloat) :=
  [(InL1 eclipse, NaN); (InL1 solar, Finite (1 # 2))].

(** One star, solar-like. *)
Definition tset1 : TrainingSet :=
  {| testfraction := 1 # 5; key := "demo";
     features_test := [bundle 1];
     labels_test := fun _ => [[InL1 solar]] |}.

(** Numerics whose table reader returns a table of two columns. *)
Definition narrow : External :=
  {| np_loadtxt := fun _ => Ok 2%nat;
     ndarray_shape := fun data => [2; data]%nat;
     ndarray_column := fun data _ => data;
     np_asarray_int32 := fun a => a;
     np_zeros_int32 := fun _ => 0%nat;
     TessLightCurve := fun time _ _ _ _ => Ok time;
     TessLightCurve_of_fits := fun _ => Ok 7%nat;
     remove_nans := fun lc => Ok lc;
     powerspectrum := fun lc => Ok (S lc);
     freqextr := fun _ => Ok [("freq1", PFloat (Finite (3 # 2)))];
     FliPer := fun _ => Ok [("Fp07", PFloat (Finite (1 # 5)))];
     py_str := str |}.

(** Paths are taken as they are; no ancestor is missing. *)
#[export] Instance os : OS :=
  {| module_dir := "/opt/starclass"; abspath := fun path => path;
     ancestors := fun _ => [] |}.

End Demo.

(** ** Vocabulary of the statements *)

Section Vocabulary.
Context `{Dom : Domain}.

(** The world after more events, nothing else touched. *)
Definition add_events (w : World) (evs : list Event) : World :=
  {| cache := cache w; figures := figures w; saved := saved w;
     trace := trace w ++ evs |}.

(** The value lies in the closed interval from 0 to 1. *)
Definition in_unit_interval (x : pyfloat) : Prop :=
  match x with
  | Finite q => (0 <= q)%Q /\ (q <= 1)%Q
  | _ => False
  end.

(** An item of a classification result as the contract wants it: the key
    is a member of the taxonomy of the level, the value is in [0,1]. *)
Definition valid_item (lvl : Level) (kv : Label * pyfloat) : Prop :=
  in_StellarClasses lvl (fst kv) = true /\ in_unit_interval (snd kv).

(** An item that the loop of [classify] lets through: the key is a member
    of the taxonomy of the level, the value is in [0,1] or is [nan]. *)
Definition accepted_item (lvl : Level) (kv : Label * pyfloat) : Prop :=
  in_StellarClasses lvl (fst kv) = true
  /\ (in_unit_interval (snd kv) \/ snd kv = NaN).

(** The six distinguished classes, highest priority first. *)
Definition priority_order : list StellarClasses :=
  [ECLIPSE; RRLYR_CEPHEID; CONTACT_ROT; DSCT_BCEP; GDOR_SPB; SOLARLIKE].

(** Label resolution as the specification words it: a single label is
    kept; a multi-label entry resolves to the first class of the priority
    order it contains, and to its first listed label when it contains
    none. *)
Inductive resolves : list Label -> Value -> Prop :=
| resolves_single l0 :
    resolves [l0] (value l0)
| resolves_priority lbl before c after :
    (1 < length lbl)%nat ->
    priority_order = before ++ c :: after ->
    InL1 c ∈ lbl ->
    Forall (fun c' => InL1 c' ∉ lbl) before ->
    resolves lbl (value (InL1 c))
| resolves_first l0 rest :
    rest <> [] ->
    Forall (fun c => InL1 c ∉ l0 :: rest) priority_order ->
    resolves (l0 :: rest) (value l0).

(** The record [test] builds for a star. *)
Definition result_record (self : Classifier) (priority : pyval)
    (probs : list (Label * pyfloat)) : pydict :=
  [("priority", priority);
   ("classifier", PStr (classifier_key self));
   ("status", PStatus OK);
   ("starclass_results", PProbs probs)].

(** The bundle has a priority, and the variant answers it with [probs],
    which pass the contract. *)
Definition classified (self : Classifier) (features : pydict)
    (priority : pyval) (probs : list (Label * pyfloat)) : Prop :=
  getitem features "priority" = Ok priority
  /\ do_classify self features = Ok probs
  /\ check_results (level self) probs = Ok tt.

(** The harness predicts [prediction] for the bundle. *)
Definition predicts (self : Classifier) (features : pydict)
    (prediction : Value) : Prop :=
  exists priority probs best,
    classified self features priority probs
    /\ py_max probs = Ok best
    /\ prediction = value best.

(** The prediction is the value of the key of an item of the answer of the
    variant for the bundle.  The key is a member of the taxonomy of the
    level and the value passes the range test of the contract; every item
    before it in iteration order has a strictly smaller value or [nan], and
    no item has a value above its value. *)
Definition predicted_from_answer (self : Classifier) (features : pydict)
    (prediction : Value) : Prop :=
  exists probs before k v after,
    do_classify self features = Ok probs
    /\ probs = before ++ (k, v) :: after
    /\ prediction = value k
    /\ in_StellarClasses (level self) k = true
    /\ float_ltb v (Finite 0) = false
    /\ float_gtb v (Finite 1) = false
    /\ Forall (fun kv => float_ltb (snd kv) v = true \/ snd kv = NaN) before
    /\ Forall (fun kv => float_gtb (snd kv) v = false) probs.

(** The record comes from a bundle of the list: it carries the priority of
    that bundle, the key of the classifier, the status [OK] and the
    validated answer of the variant, under these four keys. *)
Definition record_of (self : Classifier) (bundles : list pydict)
    (r : pydict) : Prop :=
  exists features priority probs,
    features ∈ bundles
    /\ classified self features priority probs
    /\ dict_keys r = ["priority"; "classifier"; "status"; "starclass_results"]
    /\ dict_get r "priority" = Some priority
    /\ dict_get r "classifier" = Some (PStr (classifier_key self))
    /\ dict_get r "status" = Some (PStatus OK)
    /\ dict_get r "starclass_results" = Some (PProbs probs).

(** The world after [test] handed the record to [save_func]. *)
Definition record_saved (w : World) (res : pydict) : World :=
  {| cache := cache w; figures := figures w; saved := saved w ++ [res];
     trace := trace w ++ [EvLogDebug res; EvSaveFunc res] |}.

(** The path of the image that [test] writes. *)
Definition confusion_matrix_path (self : Classifier) (tset : TrainingSet)
  : string :=
  os_path_join (data_dir self)
    ("confusion_matrix_" +:+ key tset +:+ "_" +:+ level_str (level self)
       +:+ "_" +:+ classifier_key self +:+ ".png").

End Vocabulary.

Section LoaderVocabulary.
Context `{Ext : External}.

(** The suffixes [load_star] knows. *)
Definition recognized_suffixes : list string :=
  [".noisy"; ".sysnoise"; ".txt"; ".clean"; ".fits"; ".fits.gz"].

(** The cache file of a priority. *)
Definition features_file (self : Classifier) (priority : pyval) : string :=
  os_path_join (cache_dir self)
    ("features-" +:+ py_str priority +:+ ".pickle").

(** What [load_star] adds to a bundle from the task. *)
Definition with_task_fields (task : pydict) (priority starid : pyval)
    (features : pydict) : pydict :=
  copy_task_keys task
    (dict_set (dict_set features "priority" priority) "starid" starid).

(** What the text branch makes of a table, by the shape of the table. *)
Definition table_result (task : pydict) (data : NDArray)
  : result LightCurve :=
  match ndarray_shape data with
  | nrows :: ncols :: _ =>
      if (ncols <? 3)%nat then Raise IndexError
      else
        match getitem task "starid" with
        | Ok starid =>
            TessLightCurve (ndarray_column data 0) (ndarray_column data 1)
              (ndarray_column data 2)
              (if (ncols =? 4)%nat
               then np_asarray_int32 (ndarray_column data 3)
               else np_zeros_int32 nrows)
              starid
        | Raise e => Raise e
        end
  | _ => Raise IndexError
  end.

(** The world after the bundle was pickled at the path. *)
Definition bundle_saved (w : World) (path : string) (features : pydict)
  : World :=
  {| cache := <[path := features]> (cache w); figures := figures w;
     saved := saved w; trace := trace w ++ [EvSavePickle path] |}.

End LoaderVocabulary.

(** ** Properties *)

Section Properties.
Context `{Ext : External}.

Lemma Qltb_lt (x y : Q) : Qltb x y = true <-> (x < y)%Q.
Proof. unfold Qltb, Qlt. apply Z.ltb_lt. Qed.

Lemma Qltb_ge (x y : Q) : Qltb x y = false <-> (y <= x)%Q.
Proof. unfold Qltb, Qle. apply Z.ltb_ge. Qed.

Lemma float_ltb_finite (a b : Q) :
  float_ltb (Finite a) (Finite b) = Qltb a b.
Proof. reflexivity. Qed.

Lemma float_gtb_irrefl (x : pyfloat) : float_gtb x x = false.
Proof.
  unfold float_gtb. destruct x as [q| | |]; simpl; try reflexivity.
  apply Qltb_ge, Qle_refl.
Qed.

Lemma float_gtb_nan_l (x : pyfloat) : float_gtb NaN x = false.
Proof. unfold float_gtb. by destruct x. Qed.

Lemma float_gtb_nan_r (x : pyfloat) : float_gtb x NaN = false.
Proof. unfold float_gtb. by destruct x. Qed.

(** What is not above the kept item is not above one that replaces it. *)
Lemma float_gtb_replaced (s b k : pyfloat) :
  float_gtb s b = false -> float_gtb k b = true -> float_gtb s k = false.
Proof.
  unfold float_gtb.
  destruct s as [s| | |], b as [b| | |], k as [k| | |]; simpl;
    try congruence.
  rewrite !Qltb_ge, Qltb_lt. intros Hsb Hbk.
  apply Qlt_le_weak. eapply Qle_lt_trans; eassumption.
Qed.

(** What is not above the kept item is below one that replaces it, or is
    [nan]. *)
Lemma float_ltb_replaced (s b k : pyfloat) :
  float_gtb s b = false -> float_gtb k b = true ->
  float_ltb s k = true \/ s = NaN.
Proof.
  unfold float_gtb.
  destruct s as [s| | |], b as [b| | |], k as [k| | |]; simpl;
    try congruence; auto.
  rewrite Qltb_ge, !Qltb_lt. intros Hsb Hbk.
  left. eapply Qle_lt_trans; eassumption.
Qed.

(** The range test of [classify] lets through the values of [0,1] and
    [nan]. *)
Lemma in_range_bool (v : pyfloat) :
  float_ltb v (Finite 0) || float_gtb v (Finite 1) = false
  <-> in_unit_interval v \/ v = NaN.
Proof.
  unfold float_gtb. destruct v as [q| | |]; simpl.
  - rewrite orb_false_iff, !Qltb_ge. split; [tauto |].
    intros [H | H]; [exact H | discriminate].
  - split; [discriminate | intros [[] | H]; discriminate].
  - split; [discriminate | intros [[] | H]; discriminate].
  - split; auto.
Qed.

(** *** The classification contract *)

Lemma check_results_ok lvl items :
  check_results lvl items = Ok tt <-> Forall (accepted_item lvl) items.
Proof.
  induction items as [|[k v] items IH]; simpl.
  - split; [constructor | reflexivity].
  - destruct (in_StellarClasses lvl k) eqn:Hk; simpl.
    + destruct (float_ltb v (Finite 0) || float_gtb v (Finite 1)) eqn:Hv.
      * split; [discriminate |].
        intros HF. inversion HF as [|? ? [_ Hr] _]; subst. simpl in Hr.
        apply in_range_bool in Hr. congruence.
      * apply in_range_bool in Hv. rewrite IH. split.
        -- intros HF. constructor; [split; assumption | assumption].
        -- intros HF. inversion HF; assumption.
    + split; [discriminate |].
      intros HF. inversion HF as [|? ? [Hin _] _]; subst. simpl in Hin.
      congruence.
Qed.

Lemma check_results_first_bad lvl before k v after :
  Forall (accepted_item lvl) before ->
  check_results lvl (before ++ (k, v) :: after) =
    if negb (in_StellarClasses lvl k) then Raise (UnknownClass k)
    else if float_ltb v (Finite 0) || float_gtb v (Finite 1)
         then Raise InvalidProbability
         else check_results lvl after.
Proof.
  induction before as [|[k' v'] before IH]; intros HF; [reflexivity |].
  inversion HF as [|? ? [Hin Hr] HF']; subst. simpl in Hin, Hr.
  simpl. rewrite Hin. simpl.
  apply in_range_bool in Hr. rewrite Hr. apply IH, HF'.
Qed.

Lemma valid_item_accepted lvl kv : valid_item lvl kv -> accepted_item lvl kv.
Proof. intros [Hk Hv]. split; [assumption | by left]. Qed.

Lemma classify_run self features w :
  classify self features w =
    (add_events w [EvDoClassify features],
     match do_classify self features with
     | Ok res =>
         match check_results (level self) res with
         | Ok _ => Ok res
         | Raise e => Raise e
         end
     | Raise e => Raise e
     end).
Proof.
  unfold classify, bind, emit, lift, ret, add_events. simpl.
  destruct (do_classify self features) as [res|e]; [|reflexivity].
  destruct (check_results (level self) res); reflexivity.
Qed.

(** The contract as [classify] enforces it.  It calls the [do_classify] of
    the variant and returns the mapping it got, unchanged, exactly when
    every key is a member of the taxonomy of the level and every value is
    between 0 and 1 or is [nan].  Otherwise it raises at the first
    offending item: the unknown-class error when the key of that item is
    foreign, the probability error when its key is known and its value is
    neither in [0,1] nor [nan]. *)
Lemma classify_accepts self features w res :
  do_classify self features = Ok res ->
  fst (classify self features w) = add_events w [EvDoClassify features]
  /\ (snd (classify self features w) = Ok res
      <-> Forall (accepted_item (level self)) res)
  /\ (forall res', snd (classify self features w) = Ok res' -> res' = res)
  /\ (forall before k v after,
        res = before ++ (k, v) :: after ->
        Forall (accepted_item (level self)) before ->
        (in_StellarClasses (level self) k = false ->
           snd (classify self features w) = Raise (UnknownClass k))
        /\ (in_StellarClasses (level self) k = true ->
            ~ (in_unit_interval v \/ v = NaN) ->
            snd (classify self features w) = Raise InvalidProbability)).
Proof.
  intros Hdo. rewrite classify_run, Hdo. simpl.
  split; [reflexivity |]. split; [| split].
  - rewrite <- check_results_ok.
    destruct (check_results (level self) res) as [[]|e]; split; congruence.
  - intros res'. destruct (check_results (level self) res); congruence.
  - intros before k v after -> HF.
    rewrite (check_results_first_bad _ _ _ _ _ HF). split.
    + intros ->. reflexivity.
    + intros -> Hv. simpl.
      destruct (float_ltb v (Finite 0) || float_gtb v (Finite 1)) eqn:E;
        [reflexivity |].
      apply in_range_bool in E. contradiction.
Qed.

(** *** Label resolution *)

Lemma has_class_true c lbl : has_class c lbl = true <-> InL1 c ∈ lbl.
Proof. unfold has_class. apply bool_decide_eq_true. Qed.

Lemma has_class_false c lbl : has_class c lbl = false <-> InL1 c ∉ lbl.
Proof. unfold has_class. apply bool_decide_eq_false. Qed.

Lemma multi_label_length (lbl : list Label) :
  (1 <? length lbl)%nat = true <-> exists l0 l1 rest, lbl = l0 :: l1 :: rest.
Proof.
  rewrite Nat.ltb_lt. split.
  - destruct lbl as [|l0 [|l1 rest]]; simpl; try lia. eauto.
  - intros (l0 & l1 & rest & ->). simpl. lia.
Qed.

Ltac absent_classes :=
  repeat match goal with
         | H : has_class _ _ = false |- _ => apply has_class_false in H
         end;
  repeat constructor; assumption.

Lemma parse_label_sound lbl v : parse_label lbl = Ok v -> resolves lbl v.
Proof.
  unfold parse_label. destruct (1 <? length lbl)%nat eqn:Hlen.
  - pose proof Hlen as Hlt. apply Nat.ltb_lt in Hlt.
    destruct (has_class ECLIPSE lbl) eqn:H1.
    { intros [= <-]. apply has_class_true in H1.
      apply (resolves_priority lbl [] ECLIPSE _ Hlt eq_refl H1). constructor. }
    destruct (has_class RRLYR_CEPHEID lbl) eqn:H2.
    { intros [= <-]. apply has_class_true in H2.
      apply (resolves_priority lbl [ECLIPSE] RRLYR_CEPHEID _ Hlt eq_refl H2).
      absent_classes. }
    destruct (has_class CONTACT_ROT lbl) eqn:H3.
    { intros [= <-]. apply has_class_true in H3.
      apply (resolves_priority lbl [ECLIPSE; RRLYR_CEPHEID] CONTACT_ROT _
               Hlt eq_refl H3).
      absent_classes. }
    destruct (has_class DSCT_BCEP lbl) eqn:H4.
    { intros [= <-]. apply has_class_true in H4.
      apply (resolves_priority lbl [ECLIPSE; RRLYR_CEPHEID; CONTACT_ROT]
               DSCT_BCEP _ Hlt eq_refl H4).
      absent_classes. }
    destruct (has_class GDOR_SPB lbl) eqn:H5.
    { intros [= <-]. apply has_class_true in H5.
      apply (resolves_priority lbl
               [ECLIPSE; RRLYR_CEPHEID; CONTACT_ROT; DSCT_BCEP] GDOR_SPB _
               Hlt eq_refl H5).
      absent_classes. }
    destruct (has_class SOLARLIKE lbl) eqn:H6.
    { intros [= <-]. apply has_class_true in H6.
      apply (resolves_priority lbl
               [ECLIPSE; RRLYR_CEPHEID; CONTACT_ROT; DSCT_BCEP; GDOR_SPB]
               SOLARLIKE _ Hlt eq_refl H6).
      absent_classes. }
    apply multi_label_length in Hlen as (l0 & l1 & rest & ->).
    simpl. intros [= <-]. apply resolves_first; [discriminate |].
    unfold priority_order. absent_classes.
  - apply Nat.ltb_ge in Hlen.
    destruct lbl as [|l0 [|l1 rest]]; simpl in *; try lia.
    + discriminate.
    + intros [= <-]. constructor.
Qed.

Lemma parse_label_complete lbl v : resolves lbl v -> parse_label lbl = Ok v.
Proof.
  intros Hres. unfold parse_label.
  destruct Hres as [l0 | lbl before c after Hlt Hord Hin Habs | l0 rest Hne Habs].
  - reflexivity.
  - apply Nat.ltb_lt in Hlt. rewrite Hlt.
    apply has_class_true in Hin.
    unfold priority_order in Hord.
    do 6 (destruct before as [|? before];
            [ simplify_eq/=;
              repeat match goal with
                     | H : Forall _ (_ :: _) |- _ =>
                         apply Forall_cons in H as [?%has_class_false ?]
                     end;
              repeat match goal with
                     | H : has_class _ _ = false |- _ => rewrite H
                     end;
              rewrite ?Hin; reflexivity
            | ]).
    simplify_eq/=. destruct before; simplify_eq/=.
  - destruct rest as [|l1 rest]; [contradiction |].
    change (1 <? length (l0 :: l1 :: rest))%nat with true. cbv iota.
    unfold priority_order in Habs.
    repeat match goal with
           | H : Forall _ (_ :: _) |- _ =>
               apply Forall_cons in H as [?%has_class_false ?]
           end.
    repeat match goal with
           | H : has_class _ _ = false |- _ => rewrite H
           end.
    reflexivity.
Qed.

Lemma parse_labels_loop_acc labels acc :
  parse_labels_loop labels acc =
    match result_map parse_label labels with
    | Ok vs => Ok (acc ++ vs)
    | Raise e => Raise e
    end.
Proof.
  revert acc. induction labels as [|lbl labels IH]; intros acc; simpl.
  - by rewrite app_nil_r.
  - destruct (parse_label lbl) as [v|e]; [|reflexivity].
    rewrite IH. destruct (result_map parse_label labels); [|reflexivity].
    by rewrite <- app_assoc.
Qed.

Lemma result_map_Forall2 {A B} (f : A -> result B) (l : list A) (ys : list B) :
  result_map f l = Ok ys <-> Forall2 (fun x y => f x = Ok y) l ys.
Proof.
  revert ys. induction l as [|x l IH]; intros ys; simpl.
  - split.
    + intros [= <-]. constructor.
    + intros HF. inversion HF. reflexivity.
  - split.
    + destruct (f x) as [y|e] eqn:Hx; [|discriminate].
      destruct (result_map f l) as [ys'|e]; [|discriminate].
      intros [= <-]. constructor; [assumption | by apply IH].
    + intros HF. inversion HF as [|? y ? ys' Hx HF']; subst.
      rewrite Hx. apply IH in HF'. by rewrite HF'.
Qed.

Lemma parse_label_total lbl : lbl <> [] <-> exists v, parse_label lbl = Ok v.
Proof.
  split.
  - intros Hne. destruct lbl as [|l0 rest]; [contradiction |].
    unfold parse_label.
    repeat match goal with
           | |- context [if ?b then _ else _] => destruct b
           end; simpl; eauto.
  - intros [v Hv] ->. discriminate.
Qed.

Lemma result_map_total {A B} (f : A -> result B) (l : list A) :
  Forall (fun x => exists y, f x = Ok y) l <-> exists ys, result_map f l = Ok ys.
Proof.
  induction l as [|x l IH]; simpl.
  - split; [eauto | constructor].
  - split.
    + intros HF. inversion HF as [|? ? [y Hy] HF']; subst.
      apply IH in HF' as [ys Hys]. rewrite Hy, Hys. eauto.
    + intros [ys Hys].
      destruct (f x) as [y|e] eqn:Hx; [|discriminate].
      destruct (result_map f l) as [ys'|e] eqn:Hl; [|discriminate].
      constructor; [eauto | apply IH; eauto].
Qed.

(** C2. [parse_labels] answers with one value per entry, and the value of
    an entry is its resolution: the only label of a single-label entry; for
    an entry of more than one label, the first class of the order eclipsing,
    RR Lyrae/Cepheid, contact/rotational, delta Scuti/beta Cephei, gamma
    Doradus/SPB, solar-like that the entry contains, and the first listed
    label when it contains none of the six.  It answers exactly when no
    entry is empty. *)
Theorem parse_labels_resolution (labels : list (list Label)) :
  (forall vs, parse_labels labels = Ok vs <-> Forall2 resolves labels vs)
  /\ (Forall (fun lbl => lbl <> []) labels <->
      exists vs, parse_labels labels = Ok vs).
Proof.
  assert (Hrun : parse_labels labels = result_map parse_label labels).
  { unfold parse_labels. rewrite parse_labels_loop_acc.
    destruct (result_map parse_label labels); reflexivity. }
  rewrite Hrun. split.
  - intros vs. rewrite result_map_Forall2. split; intros HF.
    + eapply Forall2_impl; [exact HF |]. apply parse_label_sound.
    + eapply Forall2_impl; [exact HF |]. apply parse_label_complete.
  - rewrite <- result_map_total. apply Forall_proper; [|reflexivity].
    intros lbl. apply parse_label_total.
Qed.

(** *** The test harness *)

(** C3. With a test fraction of zero or less, [test] returns at once and
    without error: it only logs that no testing is performed.  No bundle is
    classified, [save_func] is not called, no image is written, the cache is
    untouched. *)
Theorem test_without_testfraction self tset save save_func w :
  (testfraction tset <= 0)%Q ->
  test self tset save save_func w = (add_events w [EvLogInfoNoTest], Ok tt)
  /\ saved (fst (test self tset save save_func w)) = saved w
  /\ figures (fst (test self tset save save_func w)) = figures w
  /\ cache (fst (test self tset save save_func w)) = cache w
  /\ (forall features,
        EvDoClassify features ∈ trace (fst (test self tset save save_func w)) ->
        EvDoClassify features ∈ trace w).
Proof.
  intros Hle. apply Qle_bool_iff in Hle.
  assert (Hrun : test self tset save save_func w
                 = (add_events w [EvLogInfoNoTest], Ok tt)).
  { unfold test. rewrite Hle. reflexivity. }
  rewrite Hrun. simpl. repeat split; try reflexivity.
  intros features [Hin | Hin]%elem_of_app; [assumption |].
  apply list_elem_of_singleton in Hin. discriminate.
Qed.

(** [max] on the items seen so far: the kept item is above every earlier
    item that is not [nan], and no item is above it. *)
Lemma max_from_spec items :
  forall before best after,
    Forall (fun kv => float_ltb (snd kv) (snd best) = true \/ snd kv = NaN)
      before ->
    Forall (fun kv => float_gtb (snd kv) (snd best) = false)
      (before ++ best :: after) ->
    exists before' after',
      (before ++ best :: after) ++ items
      = before' ++ max_from best items :: after'
      /\ Forall (fun kv => float_ltb (snd kv) (snd (max_from best items)) = true
                           \/ snd kv = NaN) before'
      /\ Forall (fun kv => float_gtb (snd kv) (snd (max_from best items)) = false)
           (before' ++ max_from best items :: after').
Proof.
  induction items as [|kv items IH]; intros before best after Hlt Hall.
  - exists before, after. simpl. rewrite app_nil_r. auto.
  - simpl. destruct (float_gtb (snd kv) (snd best)) eqn:Hcmp.
    + destruct (IH (before ++ best :: after) kv [])
        as (before' & after' & Heq & H1 & H2).
      * eapply Forall_impl; [exact Hall |]. simpl. intros x Hx.
        eapply float_ltb_replaced; eassumption.
      * apply Forall_app. split.
        -- eapply Forall_impl; [exact Hall |]. simpl. intros x Hx.
           eapply float_gtb_replaced; eassumption.
        -- apply Forall_singleton, float_gtb_irrefl.
      * exists before', after'.
        rewrite <- (app_assoc _ [kv] items) in Heq. auto.
    + destruct (IH before best (after ++ [kv]))
        as (before' & after' & Heq & H1 & H2).
      * assumption.
      * change (before ++ best :: after ++ [kv])
          with (before ++ (best :: after) ++ [kv]).
        rewrite app_assoc. apply Forall_app. split; [assumption |].
        by apply Forall_singleton.
      * exists before', after'.
        change (before ++ best :: after ++ [kv])
          with (before ++ (best :: after) ++ [kv]) in Heq.
        rewrite app_assoc, <- (app_assoc _ [kv] items) in Heq. auto.
Qed.

(** The key that [max] selects: every item before it has a strictly
    smaller value or [nan], and no item has a value above its value. *)
Lemma py_max_spec (probs : list (Label * pyfloat)) best :
  py_max probs = Ok best ->
  exists before v after,
    probs = before ++ (best, v) :: after
    /\ Forall (fun kv => float_ltb (snd kv) v = true \/ snd kv = NaN) before
    /\ Forall (fun kv => float_gtb (snd kv) v = false) probs.
Proof.
  destruct probs as [|kv rest]; [discriminate |].
  unfold py_max. intros [= <-].
  destruct (max_from_spec rest [] kv [])
    as (before & after & Heq & Hlt & Hall).
  { constructor. }
  { apply Forall_singleton, float_gtb_irrefl. }
  simpl in Heq.
  destruct (max_from kv rest) as [k v] eqn:Hmax. simpl in *.
  exists before, v, after. rewrite Heq. auto.
Qed.

Lemma py_max_nonempty (probs : list (Label * pyfloat)) :
  probs <> [] -> exists best, py_max probs = Ok best.
Proof.
  intros Hne. destruct probs as [|kv rest]; [contradiction |].
  simpl. eauto.
Qed.

(** One turn of the loop of [test], when nothing raises. *)
Lemma test_loop_step self save save_func features labels rest y_pred w
    priority probs best :
  classified self features priority probs ->
  py_max probs = Ok best ->
  (save = true -> save_func = Some tt) ->
  test_loop self save save_func ((features, labels) :: rest) y_pred w
  = test_loop self save save_func rest (y_pred ++ [value best])
      (if save
       then record_saved (add_events w [EvDoClassify features])
              (result_record self priority probs)
       else add_events w [EvDoClassify features]).
Proof.
  intros (Hprio & Hdo & Hchk) Hmax Hsave. simpl.
  unfold bind at 1. unfold lift at 1. rewrite Hprio.
  unfold bind at 1. rewrite classify_run, Hdo, Hchk.
  unfold bind at 1. unfold lift at 1. rewrite Hmax.
  unfold bind at 1. destruct save.
  - rewrite (Hsave eq_refl). unfold bind at 1. simpl.
    unfold record_saved, add_events. simpl.
    rewrite <- !app_assoc. reflexivity.
  - reflexivity.
Qed.

(** The whole loop, when nothing raises: one prediction per pair, in the
    order of the pairs; only [saved] and [trace] grow. *)
Lemma test_loop_run self save save_func pairs preds :
  (save = true -> save_func = Some tt) ->
  Forall2 (fun pr p => predicts self (fst pr) p) pairs preds ->
  forall y_pred w,
  exists w',
    test_loop self save save_func pairs y_pred w = (w', Ok (y_pred ++ preds))
    /\ cache w' = cache w
    /\ figures w' = figures w
    /\ exists evs, trace w' = trace w ++ evs.
Proof.
  intros Hsave HF. induction HF as [|[features labels] p pairs preds Hp HF IH];
    intros y_pred w.
  - exists w. simpl. unfold ret. rewrite !app_nil_r.
    repeat split. exists []. by rewrite app_nil_r.
  - destruct Hp as (priority & probs & best & Hcl & Hmax & ->).
    rewrite (test_loop_step _ _ _ _ _ _ _ _ _ _ _ Hcl Hmax Hsave).
    match goal with
    | |- context [test_loop _ _ _ _ _ ?w1] =>
        destruct (IH (y_pred ++ [value best]) w1)
          as (w' & Hrun & Hc & Hf & evs & Ht)
    end.
    exists w'. rewrite Hrun, <- app_assoc. split; [reflexivity |].
    destruct save; simpl in *; rewrite Hc, Hf, Ht;
      repeat split; eexists; rewrite <- !app_assoc; reflexivity.
Qed.

Lemma Forall2_zip_fst {A B C} (P : A -> C -> Prop)
    (xs : list A) (ys : list B) (zs : list C) :
  length xs = length ys ->
  Forall2 P xs zs ->
  Forall2 (fun pr z => P (fst pr) z) (zip xs ys) zs.
Proof.
  intros Hlen HF. revert ys Hlen.
  induction HF as [|x z xs zs Hx HF IH]; intros [|y ys] Hlen;
    simpl in *; try discriminate; constructor; auto.
Qed.

(** C4. At either level, when every test bundle is classified, every
    ground truth has a first label and one of these first labels has the
    value of a base class, [test] succeeds; the accuracy it logs is
    the number of stars whose prediction equals the value of the first
    ground-truth label, over the number of stars; the confusion matrix in
    the image counts over the values of all members of the base enumeration
    [StellarClasses], whatever the level of the classifier. *)
Theorem test_scores self tset save save_func w y_pred y_true :
  ~ (testfraction tset <= 0)%Q ->
  (save = true -> save_func = Some tt) ->
  length (features_test tset) = length (labels_test tset (level self)) ->
  Forall2 (predicts self) (features_test tset) y_pred ->
  Forall2 (fun lbl t => first_value lbl = Ok t)
    (labels_test tset (level self)) y_true ->
  let all_classes := map (fun c => value (InL1 c)) StellarClasses_members in
  Exists (fun t => t ∈ all_classes) y_true ->
  let acc :=
    (Z.of_nat (count_equal y_true y_pred) # Pos.of_nat (length y_true))%Q in
  let path := confusion_matrix_path self tset in
  exists w' evs,
    test self tset save save_func w = (w', Ok tt)
    /\ trace w'
       = trace w ++ evs ++ [EvLogAccuracy (Some (acc * 100)%Q); EvSaveFig path]
    /\ figures w' !! path
       = Some {| fig_title := classifier_key self +:+ " - " +:+ key tset
                              +:+ " - " +:+ level_str (level self);
                 fig_matrix :=
                   map (fun t =>
                          map (fun p => count_pair y_true y_pred t p)
                            all_classes)
                     all_classes;
                 fig_labels := all_classes |}
    /\ cache w' = cache w.
Proof.
  intros Hfrac Hsave Hpar Hpred Htrue all_classes Hknown acc path.
  assert (Hlen : length y_true = length y_pred).
  { rewrite <- (Forall2_length _ _ _ Hpred), <- (Forall2_length _ _ _ Htrue).
    by symmetry. }
  destruct (test_loop_run self save save_func
              (zip (features_test tset) (labels_test tset (level self)))
              y_pred Hsave (Forall2_zip_fst _ _ _ _ Hpar Hpred) [] w)
    as (w1 & Hloop & Hc & Hf & evs & Ht).
  simpl in Hloop.
  apply result_map_Forall2 in Htrue.
  assert (Hq : Qle_bool (testfraction tset) 0 = false).
  { destruct (Qle_bool (testfraction tset) 0) eqn:E; [|reflexivity].
    apply Qle_bool_iff in E. contradiction. }
  assert (Hacc : accuracy_score y_true y_pred = Ok (Some acc)).
  { unfold accuracy_score. rewrite Hlen, Nat.eqb_refl. simpl negb. cbv iota.
    subst acc. rewrite Hlen.
    destruct y_true; [by apply Exists_nil in Hknown | reflexivity]. }
  assert (Hcf : confusion_matrix y_true y_pred all_classes
                = Ok (map (fun t =>
                             map (fun p => count_pair y_true y_pred t p)
                               all_classes)
                        all_classes)).
  { unfold confusion_matrix. rewrite Hlen, Nat.eqb_refl. simpl negb. cbv iota.
    assert (Hex : existsb (fun t => bool_decide (t ∈ all_classes)) y_true
                  = true).
    { apply existsb_exists. apply Exists_exists in Hknown as (t & Hin & Ht').
      exists t. split; [by apply list_elem_of_In | by apply bool_decide_eq_true]. }
    destruct all_classes as [|c0 cs] eqn:Hall.
    { apply Exists_exists in Hknown as (t & _ & Ht').
      by apply elem_of_nil in Ht'. }
    destruct y_true as [|t0 ts]; [by apply Exists_nil in Hknown |].
    rewrite Hex. reflexivity. }
  eexists. exists evs.
  unfold test. rewrite Hq.
  unfold bind at 1. rewrite Hloop.
  unfold bind at 1. unfold lift at 1. rewrite Htrue.
  unfold bind at 1. unfold lift at 1. rewrite Hacc.
  unfold bind at 1. unfold emit at 1.
  unfold bind at 1. unfold lift at 1. fold all_classes. rewrite Hcf.
  unfold savefig. split; [reflexivity |]. simpl.
  split; [| split].
  - rewrite Ht, <- !app_assoc. reflexivity.
  - subst path. unfold confusion_matrix_path. apply lookup_insert_eq.
  - exact Hc.
Qed.

Lemma result_record_of self bundles features priority probs :
  features ∈ bundles ->
  classified self features priority probs ->
  record_of self bundles (result_record self priority probs).
Proof.
  intros Hin Hcl. exists features, priority, probs.
  repeat split; solve [assumption | apply Hcl | reflexivity].
Qed.

Lemma record_of_mono self bundles bundles' r :
  (forall f, f ∈ bundles -> f ∈ bundles') ->
  record_of self bundles r -> record_of self bundles' r.
Proof.
  intros Hsub (f & p & probs & Hin & H). exists f, p, probs. auto.
Qed.

(** Whatever happens in the loop, also when it raises: [saved] only grows,
    and by records of the bundles of the pairs. *)
Lemma test_loop_saved self save save_func pairs :
  forall y_pred w,
  exists new,
    saved (fst (test_loop self save save_func pairs y_pred w)) = saved w ++ new
    /\ Forall (record_of self (map fst pairs)) new
    /\ (save = false -> new = []).
Proof.
  induction pairs as [|[features labels] pairs IH]; intros y_pred w.
  - exists []. simpl. by rewrite app_nil_r.
  - simpl. unfold bind at 1. unfold lift at 1.
    destruct (getitem features "priority") as [priority|e] eqn:Hprio;
      [| exists []; simpl; by rewrite app_nil_r].
    unfold bind at 1. rewrite classify_run.
    destruct (do_classify self features) as [probs|e] eqn:Hdo;
      [| exists []; simpl; by rewrite app_nil_r].
    destruct (check_results (level self) probs) as [[]|e] eqn:Hchk;
      [| exists []; simpl; by rewrite app_nil_r].
    unfold bind at 1. unfold lift at 1.
    destruct (py_max probs) as [best|e] eqn:Hmax;
      [| exists []; simpl; by rewrite app_nil_r].
    assert (Hcl : classified self features priority probs) by done.
    unfold bind at 1. destruct save.
    + unfold bind at 1. unfold emit at 1. unfold call_save_func.
      destruct save_func as [[]|];
        [| exists []; simpl; by rewrite app_nil_r].
      match goal with
      | |- context [test_loop _ _ _ _ ?yp ?w1] =>
          destruct (IH yp w1) as (new & Hs & HF & _)
      end.
      exists (result_record self priority probs :: new).
      rewrite Hs. simpl. rewrite <- app_assoc. split; [reflexivity |].
      split; [| discriminate]. constructor.
      * apply (result_record_of _ _ features); [left | assumption].
      * eapply Forall_impl; [exact HF |]. intros r.
        apply record_of_mono. intros f. by right.
    + unfold ret at 1.
      match goal with
      | |- context [test_loop _ _ _ _ ?yp ?w1] =>
          destruct (IH yp w1) as (new & Hs & HF & Hnil)
      end.
      exists new. rewrite Hs. simpl. split; [reflexivity |].
      split; [| assumption].
      eapply Forall_impl; [exact HF |]. intros r.
      apply record_of_mono. intros f. by right.
Qed.

(** C6, as the code has it. The records handed to [save_func] by a run of
    [test] have exactly the keys [priority], [classifier], [status] and
    [starclass_results]; each comes from a test bundle, with the priority of
    that bundle, the key of the classifier, the status [OK] and the
    validated mapping that [classify] returned for the bundle. *)
Theorem saved_records self tset save save_func w :
  exists new,
    saved (fst (test self tset save save_func w)) = saved w ++ new
    /\ Forall (record_of self (features_test tset)) new
    /\ (save = false -> new = []).
Proof.
  unfold test. destruct (Qle_bool (testfraction tset) 0).
  { exists []. simpl. by rewrite app_nil_r. }
  destruct (test_loop_saved self save save_func
              (zip (features_test tset) (labels_test tset (level self))) [] w)
    as (new & Hs & HF & Hnil).
  exists new. split; [| split; [| assumption]].
  - rewrite <- Hs. unfold bind at 1.
    destruct (test_loop self save save_func _ [] w) as [w1 [y_pred|e]];
      [| reflexivity].
    unfold bind at 1. unfold lift at 1.
    destruct (result_map first_value _) as [y_true|e]; [| reflexivity].
    unfold bind at 1. unfold lift at 1.
    destruct (accuracy_score y_true y_pred) as [acc|e]; [| reflexivity].
    unfold bind at 1. unfold emit at 1.
    unfold bind at 1. unfold lift at 1.
    destruct (confusion_matrix y_true y_pred _) as [cf|e]; reflexivity.
  - eapply Forall_impl; [exact HF |]. intros r.
    apply record_of_mono. intros f Hf.
    apply list_elem_of_fmap in Hf as ([f' l] & -> & Hin).
    by apply elem_of_zip_l in Hin.
Qed.

(** *** The feature loader *)

Lemma classifier_key_meta self :
  String.eqb (classifier_key self) "meta" = true
  <-> variant self = MetaClassifier.
Proof.
  unfold classifier_key. destruct (variant self); simpl; split;
    congruence.
Qed.

Lemma not_meta self :
  variant self <> MetaClassifier ->
  String.eqb (classifier_key self) "meta" = false.
Proof.
  intros Hv. destruct (String.eqb (classifier_key self) "meta") eqn:E;
    [| reflexivity].
  apply classifier_key_meta in E. contradiction.
Qed.

Lemma substring_full (s : string) :
  String.substring 0 (String.length s) s = s.
Proof. induction s as [|c s IH]; simpl; [reflexivity | by rewrite IH]. Qed.

Lemma substring_append_r (pre suf : string) :
  String.substring (String.length pre) (String.length suf) (pre +:+ suf) = suf.
Proof.
  induction pre as [|c pre IH]; simpl; [apply substring_full | exact IH].
Qed.

Lemma string_length_append (a b : string) :
  String.length (a +:+ b) = (String.length a + String.length b)%nat.
Proof. induction a as [|c a IH]; simpl; [reflexivity | by rewrite IH]. Qed.

Lemma substring_split (s : string) (n : nat) :
  (n <= String.length s)%nat ->
  s = String.substring 0 n s +:+ String.substring n (String.length s - n) s.
Proof.
  revert n. induction s as [|c s IH]; intros n Hn; simpl in *.
  - destruct n; [reflexivity | lia].
  - destruct n as [|n]; simpl.
    + by rewrite substring_full.
    + rewrite (IH n) at 1 by lia. reflexivity.
Qed.

(** [endswith] is the suffix relation. *)
Lemma endswith_spec (s suffix : string) :
  endswith s suffix = true <-> exists pre, s = pre +:+ suffix.
Proof.
  unfold endswith. rewrite andb_true_iff, Nat.leb_le, String.eqb_eq. split.
  - intros [Hlen Hsub].
    exists (String.substring 0 (String.length s - String.length suffix) s).
    pose proof (substring_split s
                  (String.length s - String.length suffix)) as Hsplit.
    replace (String.length s - (String.length s - String.length suffix))%nat
      with (String.length suffix) in Hsplit by lia.
    rewrite Hsub in Hsplit. apply Hsplit. lia.
  - intros [pre ->]. rewrite string_length_append. split; [lia |].
    replace (String.length pre + String.length suffix - String.length suffix)%nat
      with (String.length pre) by lia.
    apply substring_append_r.
Qed.

Lemma unrecognized_suffix task fname w :
  Forall (fun suffix => endswith fname suffix = false) recognized_suffixes ->
  load_lightcurve task fname w = (w, Raise InvalidFormat).
Proof.
  unfold recognized_suffixes. intros HF.
  repeat match goal with
         | H : Forall _ (_ :: _) |- _ => apply Forall_cons in H as [? H]
         end.
  unfold load_lightcurve.
  repeat match goal with
         | H : endswith _ _ = false |- _ => rewrite H; clear H
         end.
  reflexivity.
Qed.

(** C7. A classifier that is not the meta classifier, given a file name
    with none of the suffixes .noisy, .sysnoise, .txt, .clean, .fits,
    .fits.gz, raises the invalid-format error, and the world is as it was:
    no file was read, no features were computed, the cache was not looked
    at. *)
Theorem load_star_invalid_format self task fname w :
  variant self <> MetaClassifier ->
  Forall (fun suffix => endswith fname suffix = false) recognized_suffixes ->
  load_star self task fname w = (w, Raise InvalidFormat).
Proof.
  intros Hv Hsuf. unfold load_star. rewrite (not_meta _ Hv). simpl negb.
  cbv iota. unfold bind at 1. unfold bind at 1.
  rewrite (unrecognized_suffix _ _ _ Hsuf). reflexivity.
Qed.

(** C10. Under the meta classifier key, [load_star] leaves the world as it
    was, whatever the task and the file name and whether or not a cache
    directory is configured: nothing is pickled, the cache is unchanged. *)
Theorem load_star_meta_no_write self task fname w :
  variant self = MetaClassifier ->
  fst (load_star self task fname w) = w
  /\ cache (fst (load_star self task fname w)) = cache w
  /\ (forall path,
        EvSavePickle path ∈ trace (fst (load_star self task fname w)) ->
        EvSavePickle path ∈ trace w).
Proof.
  intros Hv. apply classifier_key_meta in Hv.
  assert (Hw : fst (load_star self task fname w) = w).
  { unfold load_star. rewrite Hv. simpl negb. cbv iota.
    unfold bind at 1. unfold ret at 1.
    unfold bind at 1. unfold lift at 1.
    destruct (getitem task "priority") as [priority|e]; [| reflexivity].
    unfold bind at 1. unfold lift at 1.
    destruct (getitem task "starid") as [starid|e]; reflexivity. }
  rewrite Hw. auto.
Qed.

(** C8. Under the meta classifier key, for a task with a priority and a
    star identifier, [load_star] returns without reading anything: the
    world is as it was and the bundle does not depend on the file name.  The
    keys of the bundle are [priority], [starid] and those of [tmag],
    [variance], [rms_hour], [ptp], [other_classifiers] that the task has,
    and each carries the value of the task. *)
Theorem load_star_meta self task fname w priority starid :
  variant self = MetaClassifier ->
  getitem task "priority" = Ok priority ->
  getitem task "starid" = Ok starid ->
  exists bundle,
    load_star self task fname w = (w, Ok bundle)
    /\ (forall fname' w', snd (load_star self task fname' w') = Ok bundle)
    /\ dict_keys bundle
       = "priority" :: "starid" :: List.filter (dict_has task) task_keys
    /\ (forall k, k ∈ dict_keys bundle -> dict_get bundle k = dict_get task k).
Proof.
  intros Hv Hprio Hstar. apply classifier_key_meta in Hv.
  assert (Hrun : forall fname' w',
             load_star self task fname' w'
             = (w', Ok (with_task_fields task priority starid []))).
  { intros fname' w'. unfold load_star. rewrite Hv. simpl negb. cbv iota.
    unfold bind at 1. unfold ret at 1.
    unfold bind at 1. unfold lift at 1. rewrite Hprio.
    unfold bind at 1. unfold lift at 1. rewrite Hstar.
    reflexivity. }
  exists (with_task_fields task priority starid []).
  split; [apply Hrun |]. split; [intros; by rewrite Hrun |].
  unfold getitem in Hprio, Hstar.
  destruct (dict_get task "priority") as [p|] eqn:Hp; [| discriminate].
  destruct (dict_get task "starid") as [s|] eqn:Hs; [| discriminate].
  simplify_eq.
  unfold with_task_fields, copy_task_keys, task_keys, dict_has. simpl.
  destruct (dict_get task "tmag") eqn:H1;
    destruct (dict_get task "variance") eqn:H2;
    destruct (dict_get task "rms_hour") eqn:H3;
    destruct (dict_get task "ptp") eqn:H4;
    destruct (dict_get task "other_classifiers") eqn:H5;
    simpl; (split; [reflexivity |]);
    intros k Hk;
    repeat (apply elem_of_cons in Hk as [-> | Hk];
            [simpl; congruence |]);
    by apply elem_of_nil in Hk.
Qed.

(** The text branch, once the table is read: nothing is done to the world,
    and the result is decided by the shape of the table before the task is
    looked at. *)
Lemma lightcurve_of_table_run task data w :
  lightcurve_of_table task data w = (w, table_result task data).
Proof.
  unfold lightcurve_of_table, table_result, column, tuple_getitem.
  cbv beta iota delta [bind lift ret].
  destruct (ndarray_shape data) as [|nrows [|ncols shape]];
    [reflexivity | reflexivity |].
  cbn [lookup list_lookup].
  destruct (ncols =? 4)%nat eqn:H4.
  - apply Nat.eqb_eq in H4. subst ncols. simpl.
    destruct (getitem task "starid"); reflexivity.
  - change (0 <? ncols)%nat with (1 <=? ncols)%nat.
    change (1 <? ncols)%nat with (2 <=? ncols)%nat.
    change (2 <? ncols)%nat with (3 <=? ncols)%nat.
    destruct ncols as [|[|[|ncols]]]; try reflexivity.
    simpl. destruct (getitem task "starid"); reflexivity.
Qed.

Lemma load_lightcurve_world task fname w :
  exists evs, fst (load_lightcurve task fname w) = add_events w evs.
Proof.
  unfold load_lightcurve.
  destruct (endswith fname ".noisy" || endswith fname ".sysnoise"
            || endswith fname ".txt" || endswith fname ".clean").
  - exists [EvLoadTxt fname].
    unfold bind at 1. unfold emit at 1.
    unfold bind at 1. unfold lift at 1.
    destruct (np_loadtxt fname) as [data|e]; [| reflexivity].
    rewrite lightcurve_of_table_run. reflexivity.
  - destruct (endswith fname ".fits" || endswith fname ".fits.gz").
    + exists [EvFitsOpen fname]. reflexivity.
    + exists []. unfold raise, add_events. simpl. rewrite app_nil_r.
      by destruct w.
Qed.

Lemma calc_features_run lightcurve w w0 :
  calc_features lightcurve w
  = (add_events w [EvCalcFeatures], snd (calc_features lightcurve w0)).
Proof.
  unfold calc_features.
  unfold bind at 1. unfold emit at 1.
  unfold bind at 2. unfold emit at 1.
  unfold bind at 1. unfold bind at 2. unfold lift at 1. unfold lift at 4.
  destruct (remove_nans lightcurve) as [lc|e]; [| reflexivity].
  unfold bind at 1. unfold bind at 2. unfold lift at 1. unfold lift at 3.
  destruct (powerspectrum lc) as [psd|e]; [| reflexivity].
  unfold bind at 1. unfold bind at 2. unfold lift at 1. unfold lift at 2.
  destruct (freqextr lightcurve) as [fe|e]; [| reflexivity].
  unfold bind, lift.
  destruct (FliPer psd) as [fl|e]; reflexivity.
Qed.

Ltac run_monad :=
  repeat (progress
            (cbv beta iota delta
               [bind lift ret emit raise os_path_exists loadPickle savePickle
                add_events bundle_saved dict_is_empty andb negb];
             cbn [cache figures saved trace fst snd])).

Ltac run_loader H := repeat (progress (run_monad; rewrite ?H)).

(** In every run of [load_star] the cache is left as it was, or gains the
    one bundle that the call returns. *)
Lemma load_star_cache_frame self task fname w :
  cache (fst (load_star self task fname w)) = cache w
  \/ exists path bundle,
       snd (load_star self task fname w) = Ok bundle
       /\ cache (fst (load_star self task fname w))
          = <[path := bundle]> (cache w).
Proof.
  unfold load_star.
  destruct (negb (String.eqb (classifier_key self) "meta")).
  - run_monad.
    destruct (load_lightcurve_world task fname w) as [evs Hw1].
    destruct (load_lightcurve task fname w) as [w1 [lightcurve|e]];
      simpl in Hw1; subst w1; [| left; reflexivity].
    destruct (cache_enabled self).
    + destruct (getitem task "priority") as [priority|e];
        [| left; reflexivity].
      destruct (getitem task "starid") as [starid|e].
      * run_monad. set (path := os_path_join _ _).
        destruct (cache w !! path) as [[|c cs]|] eqn:Hc.
        -- run_loader Hc. rewrite bool_decide_true by eauto.
           run_loader Hc.
           rewrite (calc_features_run lightcurve _ w).
           destruct (snd (calc_features lightcurve w)) as [computed|e].
           ++ right. run_loader Hc. eauto.
           ++ left. reflexivity.
        -- left. run_loader Hc. rewrite bool_decide_true by eauto.
           run_loader Hc. reflexivity.
        -- run_loader Hc. rewrite bool_decide_false by (by intros [? ?]).
           run_loader Hc.
           rewrite (calc_features_run lightcurve _ w).
           destruct (snd (calc_features lightcurve w)) as [computed|e].
           ++ right. run_loader Hc. eauto.
           ++ left. reflexivity.
      * left. run_monad. set (path := os_path_join _ _).
        destruct (cache w !! path) as [[|c cs]|] eqn:Hc.
        -- run_loader Hc. rewrite bool_decide_true by eauto.
           run_loader Hc.
           rewrite (calc_features_run lightcurve _ w).
           destruct (snd (calc_features lightcurve w)); reflexivity.
        -- run_loader Hc. rewrite bool_decide_true by eauto.
           run_loader Hc. reflexivity.
        -- run_loader Hc. rewrite bool_decide_false by (by intros [? ?]).
           run_loader Hc.
           rewrite (calc_features_run lightcurve _ w).
           destruct (snd (calc_features lightcurve w)); reflexivity.
    + left. run_monad.
      rewrite (calc_features_run lightcurve _ w).
      destruct (snd (calc_features lightcurve w)) as [computed|e];
        [| reflexivity].
      run_monad.
      destruct (getitem task "priority"); [| reflexivity].
      destruct (getitem task "starid"); reflexivity.
  - left. run_monad.
    destruct (getitem task "priority"); [| reflexivity].
    destruct (getitem task "starid"); reflexivity.
Qed.

Lemma dict_set_nonempty (d : pydict) k v : dict_set d k v <> [].
Proof.
  destruct d as [|[k' v'] d]; simpl; [discriminate |].
  destruct (String.eqb k' k); discriminate.
Qed.

Lemma copy_task_keys_nonempty (task features : pydict) :
  features <> [] -> copy_task_keys task features <> [].
Proof.
  unfold copy_task_keys. generalize task_keys. intros keys. revert features.
  induction keys as [|k keys IH]; intros features Hne; simpl; [assumption |].
  apply IH. destruct (dict_get task k); [apply dict_set_nonempty | assumption].
Qed.

(** Every bundle that [load_star] returns has the task fields in it. *)
Lemma load_star_result_nonempty self task fname w bundle :
  snd (load_star self task fname w) = Ok bundle -> bundle <> [].
Proof.
  unfold load_star.
  match goal with
  | |- context [bind ?m _ w] => generalize m
  end.
  intros m. unfold bind at 1.
  destruct (m w) as [w1 [[[features save_to_cache] features_file]|e]];
    [| discriminate].
  unfold bind at 1. unfold lift at 1.
  destruct (getitem task "priority") as [priority|e]; [| discriminate].
  unfold bind at 1. unfold lift at 1.
  destruct (getitem task "starid") as [starid|e]; [| discriminate].
  unfold bind at 1.
  destruct (save_to_cache && cache_enabled self);
    [destruct features_file; [| discriminate] |];
    simpl; intros [= <-];
    apply copy_task_keys_nonempty, dict_set_nonempty.
Qed.

(** No run of [load_star] puts an empty bundle into the cache. *)
Lemma load_star_cache_nonempty self task fname w :
  (forall p b, cache w !! p = Some b -> b <> []) ->
  forall p b,
    cache (fst (load_star self task fname w)) !! p = Some b -> b <> [].
Proof.
  intros Hinv p b.
  destruct (load_star_cache_frame self task fname w)
    as [-> | (p' & bundle & Hres & ->)]; [apply Hinv |].
  rewrite lookup_insert. case_decide; [| apply Hinv].
  intros [= <-]. eapply load_star_result_nonempty, Hres.
Qed.

(** C9, as the code has it.  For a classifier that is not the meta
    classifier and has a cache directory, once the light curve is read:
    when the cache file of the priority holds a bundle that is not empty,
    the bundle is loaded from it, [calc_features] is not called and nothing
    is written; when the file is absent, or holds an empty bundle, the
    bundle is computed and, if the computation succeeds, written once to
    the cache file after it; if the computation raises, nothing is
    written.  In every case the cache is as it was or has gained the one
    bundle that is returned. *)
Theorem load_star_cache self task fname w w1 lightcurve priority starid :
  variant self <> MetaClassifier ->
  cache_enabled self = true ->
  load_lightcurve task fname w = (w1, Ok lightcurve) ->
  getitem task "priority" = Ok priority ->
  getitem task "starid" = Ok starid ->
  let path := features_file self priority in
  (forall cached,
      cache w !! path = Some cached -> cached <> [] ->
      load_star self task fname w
      = (add_events w1 [EvExists path; EvLoadPickle path],
         Ok (with_task_fields task priority starid cached)))
  /\ (forall computed,
        cache w !! path = None ->
        snd (calc_features lightcurve w) = Ok computed ->
        load_star self task fname w
        = (bundle_saved
             (add_events w1 [EvExists path; EvCalcFeatures; EvLogDebug computed])
             path (with_task_fields task priority starid computed),
           Ok (with_task_fields task priority starid computed)))
  /\ (forall computed,
        cache w !! path = Some [] ->
        snd (calc_features lightcurve w) = Ok computed ->
        load_star self task fname w
        = (bundle_saved
             (add_events w1 [EvExists path; EvLoadPickle path; EvCalcFeatures;
                             EvLogDebug computed])
             path (with_task_fields task priority starid computed),
           Ok (with_task_fields task priority starid computed)))
  /\ (forall e,
        cache w !! path = None \/ cache w !! path = Some [] ->
        snd (calc_features lightcurve w) = Raise e ->
        snd (load_star self task fname w) = Raise e
        /\ cache (fst (load_star self task fname w)) = cache w
        /\ forall p, EvSavePickle p ∈ trace (fst (load_star self task fname w))
                     -> EvSavePickle p ∈ trace w1)
  /\ (cache (fst (load_star self task fname w)) = cache w
      \/ exists p bundle,
           snd (load_star self task fname w) = Ok bundle
           /\ cache (fst (load_star self task fname w))
              = <[p := bundle]> (cache w)).
Proof.
  intros Hv Hen Hlc Hprio Hstar path.
  pose proof (load_star_cache_frame self task fname w) as Hframe.
  destruct (load_lightcurve_world task fname w) as [evs Hw1].
  rewrite Hlc in Hw1. simpl in Hw1.
  subst w1.
  assert (Hstart :
    load_star self task fname w
    = (st <- (cached <- (found <- os_path_exists path ;;
                         if found
                         then loaded <- loadPickle path ;;
                              ret (loaded, Some path)
                         else ret ([], Some path)) ;;
              let '(features, features_file) := cached in
              if dict_is_empty features
              then computed <- calc_features lightcurve ;;
                   emit (EvLogDebug computed) ;;;
                   ret (computed, true, features_file)
              else ret (features, false, features_file)) ;;
       let '(features, save_to_cache, features_file) := st in
       (if save_to_cache && true
        then match features_file with
             | Some p =>
                 savePickle p (with_task_fields task priority starid features)
             | None => raise UnboundLocalError
             end
        else ret tt) ;;;
       ret (with_task_fields task priority starid features))
      (add_events w evs)).
  { unfold load_star. rewrite (not_meta _ Hv), Hen, Hprio, Hstar.
    cbv beta iota delta [bind lift ret negb]. rewrite Hlc.
    reflexivity. }
  rewrite Hstart in *. clear Hstart.
  split; [| split; [| split; [| split; [| exact Hframe]]]].
  - intros cached Hc Hne.
    destruct cached as [|c cs]; [contradiction |].
    run_loader Hc. rewrite bool_decide_true by eauto.
    run_loader Hc. rewrite <- !app_assoc. reflexivity.
  - intros computed Hc Hcalc.
    run_loader Hc. rewrite bool_decide_false by (by intros [? ?]).
    run_loader Hc. rewrite (calc_features_run lightcurve _ w), Hcalc.
    run_loader Hc. rewrite <- !app_assoc. reflexivity.
  - intros computed Hc Hcalc.
    run_loader Hc. rewrite bool_decide_true by eauto.
    run_loader Hc. rewrite (calc_features_run lightcurve _ w), Hcalc.
    run_loader Hc. rewrite <- !app_assoc. reflexivity.
  - intros e [Hc | Hc] Hcalc.
    + run_loader Hc. rewrite bool_decide_false by (by intros [? ?]).
      run_loader Hc. rewrite (calc_features_run lightcurve _ w), Hcalc.
      run_loader Hc. repeat split.
      intros p Hp.
      repeat (apply elem_of_app in Hp as [Hp | Hp];
              [| solve [apply list_elem_of_singleton in Hp; discriminate]]).
      exact Hp.
    + run_loader Hc. rewrite bool_decide_true by eauto.
      run_loader Hc. rewrite (calc_features_run lightcurve _ w), Hcalc.
      run_loader Hc. repeat split.
      intros p Hp.
      repeat (apply elem_of_app in Hp as [Hp | Hp];
              [| solve [apply list_elem_of_singleton in Hp; discriminate]]).
      exact Hp.
Qed.

(** ** Further properties *)

(** *** Dictionaries *)

Lemma dict_get_set (d : pydict) k v k' :
  dict_get (dict_set d k v) k'
  = if String.eqb k k' then Some v else dict_get d k'.
Proof.
  induction d as [|[k0 v0] d IH]; simpl.
  - reflexivity.
  - destruct (String.eqb k0 k) eqn:E0; simpl.
    + apply String.eqb_eq in E0 as ->. destruct (String.eqb k k'); reflexivity.
    + rewrite IH. destruct (String.eqb k0 k') eqn:E1; [| reflexivity].
      apply String.eqb_eq in E1 as ->.
      rewrite String.eqb_sym, E0. reflexivity.
Qed.

Lemma dict_set_same (d : pydict) k v :
  dict_get d k = Some v -> dict_set d k v = d.
Proof.
  induction d as [|[k0 v0] d IH]; simpl; [discriminate |].
  destruct (String.eqb k0 k); [by intros [= ->] |].
  intros H. by rewrite IH.
Qed.

Lemma dict_get_update (d other : pydict) k :
  NoDup (dict_keys other) ->
  dict_get (dict_update d other) k
  = match dict_get other k with
    | Some v => Some v
    | None => dict_get d k
    end.
Proof.
  unfold dict_update. revert d.
  induction other as [|[k0 v0] other IH]; intros d Hnd; simpl; [reflexivity |].
  apply NoDup_cons in Hnd as [Hk0 Hnd]. rewrite (IH _ Hnd), dict_get_set.
  destruct (String.eqb k0 k) eqn:E; [| reflexivity].
  apply String.eqb_eq in E as ->.
  destruct (dict_get other k) as [v|] eqn:Hg; [| reflexivity].
  exfalso. apply Hk0. clear -Hg.
  induction other as [|[k1 v1] other IH]; simpl in *; [discriminate |].
  destruct (String.eqb k1 k) eqn:E; [apply String.eqb_eq in E as ->; left |].
  right. by apply IH.
Qed.

Lemma copy_keys_get (task : pydict) (keys : list string) :
  forall (features : pydict) k,
    dict_get
      (fold_left
         (fun features key =>
            match dict_get task key with
            | Some v => dict_set features key v
            | None => features
            end)
         keys features) k
    = if bool_decide (k ∈ keys)
      then match dict_get task k with
           | Some v => Some v
           | None => dict_get features k
           end
      else dict_get features k.
Proof.
  induction keys as [|k0 keys IH]; intros features k; simpl; [reflexivity |].
  rewrite IH.
  destruct (decide (k0 = k)) as [-> | Hne].
  - rewrite (bool_decide_true (k ∈ k :: keys)) by left.
    destruct (dict_get task k) as [v|] eqn:Ht.
    + rewrite dict_get_set, String.eqb_refl. by destruct (bool_decide _).
    + by destruct (bool_decide _).
  - assert (Hget : dict_get
                     match dict_get task k0 with
                     | Some v => dict_set features k0 v
                     | None => features
                     end k = dict_get features k).
    { destruct (dict_get task k0); [| reflexivity].
      rewrite dict_get_set.
      destruct (String.eqb k0 k) eqn:E; [| reflexivity].
      by apply String.eqb_eq in E. }
    rewrite Hget.
    destruct (decide (k ∈ keys)) as [Hin | Hnin].
    + rewrite !bool_decide_true; [reflexivity | by right | assumption].
    + rewrite !bool_decide_false; [reflexivity | | assumption].
      intros [? | ?]%elem_of_cons; congruence.
Qed.

(** What a bundle holds once the task fields are attached. *)
Lemma with_task_fields_get task priority starid (features : pydict) k :
  dict_get (with_task_fields task priority starid features) k
  = if bool_decide (k ∈ task_keys)
    then match dict_get task k with
         | Some v => Some v
         | None => dict_get features k
         end
    else if String.eqb "starid" k then Some starid
    else if String.eqb "priority" k then Some priority
    else dict_get features k.
Proof.
  unfold with_task_fields, copy_task_keys. rewrite copy_keys_get.
  rewrite !dict_get_set.
  destruct (bool_decide (k ∈ task_keys)) eqn:E; [| reflexivity].
  apply bool_decide_eq_true in E. unfold task_keys in E.
  repeat (apply elem_of_cons in E as [-> | E]; [reflexivity |]).
  by apply elem_of_nil in E.
Qed.

(** *** The feature loader, continued *)

(** Every bundle that [load_star] returns ends with the task fields
    attached to some features. *)
Lemma load_star_result_shape self task fname w bundle :
  snd (load_star self task fname w) = Ok bundle ->
  exists features priority starid,
    getitem task "priority" = Ok priority
    /\ getitem task "starid" = Ok starid
    /\ bundle = with_task_fields task priority starid features.
Proof.
  unfold load_star.
  match goal with
  | |- context [bind ?m _ w] => generalize m
  end.
  intros m. unfold bind at 1.
  destruct (m w) as [w1 [[[features save_to_cache] features_file]|e]];
    [| discriminate].
  unfold bind at 1. unfold lift at 1.
  destruct (getitem task "priority") as [priority|e]; [| discriminate].
  unfold bind at 1. unfold lift at 1.
  destruct (getitem task "starid") as [starid|e]; [| discriminate].
  unfold bind at 1.
  destruct (save_to_cache && cache_enabled self);
    [destruct features_file; [| discriminate] |];
    simpl; intros [= <-]; exists features, priority, starid; auto.
Qed.

Lemma getitem_Ok (d : pydict) k v : getitem d k = Ok v <-> dict_get d k = Some v.
Proof.
  unfold getitem. destruct (dict_get d k); split; congruence.
Qed.

(** X1. Whatever the variant, the file and the cache hold, a bundle that
    [load_star] returns carries the priority and the star identifier of the
    task, and for each of [tmag], [variance], [rms_hour], [ptp],
    [other_classifiers] that the task has, the value of the task: values
    of a cached bundle under these keys are overwritten. *)
Theorem load_star_task_fields self task fname w bundle :
  snd (load_star self task fname w) = Ok bundle ->
  dict_get bundle "priority" = dict_get task "priority"
  /\ dict_get bundle "starid" = dict_get task "starid"
  /\ is_Some (dict_get task "priority")
  /\ is_Some (dict_get task "starid")
  /\ forall k, k ∈ task_keys -> dict_has task k = true ->
               dict_get bundle k = dict_get task k.
Proof.
  intros (features & priority & starid & Hp & Hs & ->)%load_star_result_shape.
  apply getitem_Ok in Hp, Hs. rewrite Hp, Hs.
  rewrite !with_task_fields_get. simpl.
  repeat split; eauto.
  intros k Hk Hhas. rewrite with_task_fields_get.
  rewrite bool_decide_true by assumption.
  unfold dict_has in Hhas. by destruct (dict_get task k).
Qed.

Lemma copy_task_keys_fixed task (features : pydict) :
  (forall k v, k ∈ task_keys -> dict_get task k = Some v ->
               dict_get features k = Some v) ->
  copy_task_keys task features = features.
Proof.
  unfold copy_task_keys. generalize task_keys. intros keys.
  induction keys as [|k keys IH]; intros Hfix; simpl; [reflexivity |].
  destruct (dict_get task k) as [v|] eqn:Ht.
  - rewrite (dict_set_same features k v) by (apply Hfix; [left | assumption]).
    apply IH. intros k' v' Hin. apply Hfix. by right.
  - apply IH. intros k' v' Hin. apply Hfix. by right.
Qed.

(** Attaching the task fields twice is attaching them once. *)
Lemma with_task_fields_idemp task priority starid (features : pydict) :
  with_task_fields task priority starid
    (with_task_fields task priority starid features)
  = with_task_fields task priority starid features.
Proof.
  set (R := with_task_fields task priority starid features).
  unfold with_task_fields at 1.
  rewrite (dict_set_same R "priority" priority).
  2:{ unfold R. rewrite with_task_fields_get. reflexivity. }
  rewrite (dict_set_same R "starid" starid).
  2:{ unfold R. rewrite with_task_fields_get. reflexivity. }
  apply copy_task_keys_fixed. intros k v Hin Ht.
  unfold R. rewrite with_task_fields_get, bool_decide_true, Ht; done.
Qed.

Lemma load_lightcurve_run task fname w w0 :
  exists evs,
    load_lightcurve task fname w
    = (add_events w evs, snd (load_lightcurve task fname w0))
    /\ Forall (fun ev => ev = EvLoadTxt fname \/ ev = EvFitsOpen fname) evs.
Proof.
  unfold load_lightcurve.
  destruct (endswith fname ".noisy" || endswith fname ".sysnoise"
            || endswith fname ".txt" || endswith fname ".clean").
  - exists [EvLoadTxt fname]. split; [| apply Forall_singleton; auto].
    run_monad.
    destruct (np_loadtxt fname) as [data|e]; [| reflexivity].
    by rewrite !lightcurve_of_table_run.
  - destruct (endswith fname ".fits" || endswith fname ".fits.gz").
    + exists [EvFitsOpen fname].
      split; [reflexivity | apply Forall_singleton; auto].
    + exists []. split; [| constructor].
      unfold raise, add_events. simpl. rewrite app_nil_r. by destruct w.
Qed.

(** The run of [load_star] once the light curve is read, for a classifier
    that is not the meta classifier. *)
Lemma load_star_after_lightcurve self task fname w w1 lightcurve :
  variant self <> MetaClassifier ->
  load_lightcurve task fname w = (w1, Ok lightcurve) ->
  load_star self task fname w
  = (st <- (cached <- (if cache_enabled self then
                         priority <- lift (getitem task "priority") ;;
                         found <- os_path_exists (features_file self priority) ;;
                         if found
                         then loaded <- loadPickle (features_file self priority) ;;
                              ret (loaded, Some (features_file self priority))
                         else ret ([], Some (features_file self priority))
                       else ret ([], None)) ;;
            let '(features, features_file) := cached in
            if dict_is_empty features
            then computed <- calc_features lightcurve ;;
                 emit (EvLogDebug computed) ;;;
                 ret (computed, true, features_file)
            else ret (features, false, features_file)) ;;
     let '(features, save_to_cache, features_file) := st in
     priority <- lift (getitem task "priority") ;;
     starid <- lift (getitem task "starid") ;;
     (if save_to_cache && cache_enabled self
      then match features_file with
           | Some p =>
               savePickle p (with_task_fields task priority starid features)
           | None => raise UnboundLocalError
           end
      else ret tt) ;;;
     ret (with_task_fields task priority starid features)) w1.
Proof.
  intros Hv Hlc. unfold load_star. rewrite (not_meta _ Hv).
  cbv beta iota delta [bind lift ret negb]. rewrite Hlc. reflexivity.
Qed.

Lemma load_star_hit self task fname w w1 lightcurve priority starid cached :
  variant self <> MetaClassifier ->
  cache_enabled self = true ->
  load_lightcurve task fname w = (w1, Ok lightcurve) ->
  getitem task "priority" = Ok priority ->
  getitem task "starid" = Ok starid ->
  cache w1 !! features_file self priority = Some cached ->
  cached <> [] ->
  load_star self task fname w
  = (add_events w1 [EvExists (features_file self priority);
                    EvLoadPickle (features_file self priority)],
     Ok (with_task_fields task priority starid cached)).
Proof.
  intros Hv Hen Hlc Hp Hs Hc Hne.
  rewrite (load_star_after_lightcurve _ _ _ _ _ _ Hv Hlc), Hen, Hp, Hs.
  destruct cached as [|c cs]; [contradiction |].
  run_loader Hc. rewrite bool_decide_true by eauto.
  run_loader Hc. rewrite <- !app_assoc. reflexivity.
Qed.

(** A classifier with a cache directory that returns a bundle leaves a
    bundle in the cache file of the priority, from which the returned
    bundle is got back by attaching the task fields. *)
Lemma load_star_leaves_cached self task fname w w1 bundle :
  variant self <> MetaClassifier ->
  cache_enabled self = true ->
  load_star self task fname w = (w1, Ok bundle) ->
  exists lightcurve priority starid cached,
    snd (load_lightcurve task fname w) = Ok lightcurve
    /\ getitem task "priority" = Ok priority
    /\ getitem task "starid" = Ok starid
    /\ cache w1 !! features_file self priority = Some cached
    /\ cached <> []
    /\ with_task_fields task priority starid cached = bundle.
Proof.
  intros Hv Hen Hrun.
  destruct (load_lightcurve_run task fname w w) as (evs & Hlc & _).
  destruct (snd (load_lightcurve task fname w)) as [lightcurve|e] eqn:Hres.
  2:{ unfold load_star in Hrun. rewrite (not_meta _ Hv) in Hrun.
      cbv beta iota delta [bind lift ret negb] in Hrun.
      rewrite Hlc in Hrun. discriminate. }
  rewrite (load_star_after_lightcurve _ _ _ _ _ _ Hv Hlc), Hen in Hrun.
  destruct (getitem task "priority") as [priority|e] eqn:Hp;
    [| run_monad; discriminate].
  destruct (getitem task "starid") as [starid|e] eqn:Hs.
  2:{ revert Hrun. run_monad.
      destruct (cache w !! features_file self priority) as [[|c cs]|] eqn:Hc;
        run_loader Hc; rewrite ?bool_decide_true by eauto;
        rewrite ?bool_decide_false by (by intros [? ?]);
        run_loader Hc;
        try rewrite (calc_features_run lightcurve _ w);
        try destruct (snd (calc_features lightcurve w));
        run_monad; discriminate. }
  exists lightcurve, priority, starid.
  revert Hrun. run_monad.
  destruct (cache w !! features_file self priority) as [[|c cs]|] eqn:Hc.
  - run_loader Hc. rewrite bool_decide_true by eauto. run_loader Hc.
    rewrite (calc_features_run lightcurve _ w).
    destruct (snd (calc_features lightcurve w)) as [computed|e];
      run_monad; [| discriminate].
    intros [= <- <-]. eexists. simpl.
    rewrite lookup_insert_eq. repeat split.
    + unfold with_task_fields. apply copy_task_keys_nonempty, dict_set_nonempty.
    + apply with_task_fields_idemp.
  - run_loader Hc. rewrite bool_decide_true by eauto. run_loader Hc.
    intros [= <- <-]. exists (c :: cs). simpl. repeat split; done.
  - run_loader Hc. rewrite bool_decide_false by (by intros [? ?]).
    run_loader Hc.
    rewrite (calc_features_run lightcurve _ w).
    destruct (snd (calc_features lightcurve w)) as [computed|e];
      run_monad; [| discriminate].
    intros [= <- <-]. eexists. simpl.
    rewrite lookup_insert_eq. repeat split.
    + unfold with_task_fields. apply copy_task_keys_nonempty, dict_set_nonempty.
    + apply with_task_fields_idemp.
Qed.

(** X2. The cache is shared between the variants other than the meta
    classifier: once a classifier that is not the meta classifier and has a
    cache directory has returned a bundle for a task, any classifier with
    the same cache directory that is not the meta classifier either returns
    the same bundle for the same task and file, and on the way it only
    reads: the observation file, then the cache file; nothing is computed
    and nothing is written. *)
Theorem load_star_cache_reuse first second task fname w w1 bundle :
  variant first <> MetaClassifier ->
  variant second <> MetaClassifier ->
  cache_enabled first = true ->
  features_cache second = features_cache first ->
  load_star first task fname w = (w1, Ok bundle) ->
  exists evs,
    load_star second task fname w1 = (add_events w1 evs, Ok bundle)
    /\ Forall (fun ev => ev = EvLoadTxt fname \/ ev = EvFitsOpen fname
                         \/ (exists p, ev = EvExists p)
                         \/ (exists p, ev = EvLoadPickle p)) evs.
Proof.
  intros Hv1 Hv2 Hen Hsame Hrun.
  destruct (load_star_leaves_cached _ _ _ _ _ _ Hv1 Hen Hrun)
    as (lightcurve & priority & starid & cached
        & Hlc & Hp & Hs & Hc & Hne & <-).
  destruct (load_lightcurve_run task fname w1 w) as (evs & Hlc1 & Hevs).
  rewrite Hlc in Hlc1.
  assert (Hen2 : cache_enabled second = true).
  { unfold cache_enabled in *. by rewrite Hsame. }
  assert (Hfile : features_file second priority = features_file first priority).
  { unfold features_file, cache_dir. by rewrite Hsame. }
  exists (evs ++ [EvExists (features_file first priority);
                  EvLoadPickle (features_file first priority)]).
  split.
  - rewrite (load_star_hit second task fname w1 _ lightcurve priority starid
               cached Hv2 Hen2 Hlc1 Hp Hs); [| by rewrite Hfile | assumption].
    rewrite Hfile. unfold add_events. simpl. by rewrite <- app_assoc.
  - apply Forall_app. split.
    + eapply Forall_impl; [exact Hevs |]. intros ev [-> | ->]; auto.
    + apply Forall_cons. split; [right; right; left; eauto |].
      apply Forall_singleton. right; right; right; eauto.
Qed.

(** X3. Without a cache directory a classifier that is not the meta
    classifier computes the features at every call and never looks at the
    cache: whatever the cache holds, it is neither read nor changed. *)
Theorem load_star_without_cache self task fname w w1 lightcurve :
  variant self <> MetaClassifier ->
  cache_enabled self = false ->
  load_lightcurve task fname w = (w1, Ok lightcurve) ->
  cache (fst (load_star self task fname w)) = cache w
  /\ (exists evs,
        fst (load_star self task fname w)
        = add_events w1 (EvCalcFeatures :: evs)
        /\ Forall (fun ev => exists d, ev = EvLogDebug d) evs)
  /\ (forall computed priority starid,
        snd (calc_features lightcurve w) = Ok computed ->
        getitem task "priority" = Ok priority ->
        getitem task "starid" = Ok starid ->
        snd (load_star self task fname w)
        = Ok (with_task_fields task priority starid computed))
  /\ (forall e,
        snd (calc_features lightcurve w) = Raise e ->
        snd (load_star self task fname w) = Raise e).
Proof.
  intros Hv Hen Hlc.
  destruct (load_lightcurve_run task fname w w) as (evs & Hlc' & _).
  rewrite Hlc in Hlc'.
  assert (w1 = add_events w evs) as -> by congruence.
  rewrite (load_star_after_lightcurve _ _ _ _ _ _ Hv Hlc), Hen.
  run_monad. rewrite (calc_features_run lightcurve _ w).
  destruct (snd (calc_features lightcurve w)) as [computed|e]; run_monad.
  - destruct (getitem task "priority") as [priority|e]; run_monad.
    + destruct (getitem task "starid") as [starid|e]; run_monad;
        (split; [reflexivity |]);
        (split; [exists [EvLogDebug computed];
                 rewrite <- !app_assoc; split; [reflexivity |];
                 repeat constructor; eauto |]);
        split; congruence.
    + split; [reflexivity |].
      split; [exists [EvLogDebug computed];
              rewrite <- !app_assoc; split; [reflexivity |];
              repeat constructor; eauto |].
      split; congruence.
  - split; [reflexivity |].
    split; [exists []; rewrite <- !app_assoc; split; [reflexivity |];
            constructor |].
    split; congruence.
Qed.

(** X4. A task without a priority never yields a bundle and never changes
    the cache.  The meta classifier raises the key error at once; a
    classifier with a cache directory raises it right after the light curve
    is read, before the cache is looked at and before any feature is
    computed. *)
Theorem load_star_missing_priority self task fname w :
  dict_get task "priority" = None ->
  (exists e, snd (load_star self task fname w) = Raise e)
  /\ cache (fst (load_star self task fname w)) = cache w
  /\ (variant self = MetaClassifier ->
      load_star self task fname w = (w, Raise (KeyError "priority")))
  /\ (variant self <> MetaClassifier ->
      cache_enabled self = true ->
      forall w1 lightcurve,
        load_lightcurve task fname w = (w1, Ok lightcurve) ->
        load_star self task fname w = (w1, Raise (KeyError "priority"))).
Proof.
  intros Hnone.
  assert (Hget : getitem task "priority" = Raise (KeyError "priority")).
  { unfold getitem. by rewrite Hnone. }
  split; [| split; [| split]].
  - destruct (snd (load_star self task fname w)) as [bundle|e] eqn:Hres;
      [| eauto].
    apply load_star_result_shape in Hres as (? & ? & ? & Hp & _). congruence.
  - destruct (load_star_cache_frame self task fname w)
      as [Hsame | (p & bundle & Hres & _)]; [assumption |].
    apply load_star_result_shape in Hres as (? & ? & ? & Hp & _). congruence.
  - intros Hv. apply classifier_key_meta in Hv.
    unfold load_star. rewrite Hv, Hget. reflexivity.
  - intros Hv Hen w1 lightcurve Hlc.
    rewrite (load_star_after_lightcurve _ _ _ _ _ _ Hv Hlc), Hen, Hget.
    reflexivity.
Qed.

(** X5. When the observation file cannot be read, a classifier that is not
    the meta classifier fails with the error of the reader, also when the
    cache holds a bundle for the task: the cache is consulted only after
    the light curve is there. *)
Theorem load_star_unreadable_file self task fname w w1 e :
  variant self <> MetaClassifier ->
  load_lightcurve task fname w = (w1, Raise e) ->
  load_star self task fname w = (w1, Raise e)
  /\ cache w1 = cache w
  /\ Forall (fun ev => ev = EvLoadTxt fname \/ ev = EvFitsOpen fname)
       (drop (length (trace w)) (trace w1)).
Proof.
  intros Hv Hlc.
  destruct (load_lightcurve_run task fname w w) as (evs & Hlc' & Hevs).
  rewrite Hlc in Hlc'.
  assert (w1 = add_events w evs) as -> by congruence.
  split; [| split].
  - unfold load_star. rewrite (not_meta _ Hv).
    cbv beta iota delta [bind lift ret negb]. rewrite Hlc. reflexivity.
  - reflexivity.
  - simpl. by rewrite drop_app_length.
Qed.

(** *** The derived features *)

(** X6. When the four routines succeed, [calc_features] returns a bundle
    whose first two keys are [lightcurve] and [powerspectrum]; under a key
    that several sources give, the FliPer value wins over the value of the
    frequency extraction, and both win over the light curve and the power
    spectrum.  The frequencies are extracted from the light curve as it was
    given, the power spectrum is computed from the one without NaNs. *)
Theorem calc_features_bundle lightcurve lc psd (fe fl : pydict) w :
  remove_nans lightcurve = Ok lc ->
  powerspectrum lc = Ok psd ->
  freqextr lightcurve = Ok fe ->
  FliPer psd = Ok fl ->
  NoDup (dict_keys fe) ->
  NoDup (dict_keys fl) ->
  exists features,
    calc_features lightcurve w = (add_events w [EvCalcFeatures], Ok features)
    /\ take 2 (dict_keys features) = ["lightcurve"; "powerspectrum"]
    /\ forall k,
         dict_get features k
         = match dict_get fl k with
           | Some v => Some v
           | None =>
               match dict_get fe k with
               | Some v => Some v
               | None =>
                   if String.eqb "powerspectrum" k
                   then Some (PPowerSpectrum psd)
                   else if String.eqb "lightcurve" k
                        then Some (PLightCurve lightcurve)
                        else None
               end
           end.
Proof.
  intros Hrn Hps Hfe Hfl Hnd1 Hnd2.
  eexists. split; [| split].
  - unfold calc_features. run_monad. rewrite Hrn. run_monad.
    rewrite Hps. run_monad. rewrite Hfe. run_monad. rewrite Hfl.
    reflexivity.
  - assert (Hkeep : forall (other d : pydict) k1 k2,
               take 2 (dict_keys d) = [k1; k2] ->
               take 2 (dict_keys (dict_update d other)) = [k1; k2]).
    { unfold dict_update. induction other as [|[k v] other IH];
        intros d k1 k2 Hd; simpl; [assumption |].
      apply IH. destruct d as [|[a va] [|[b vb] d]]; simpl in Hd;
        try discriminate.
      injection Hd as -> ->. simpl.
      destruct (String.eqb k1 k); [reflexivity |]. simpl.
      destruct (String.eqb k2 k); reflexivity. }
    do 2 apply Hkeep. reflexivity.
  - intros k. rewrite !dict_get_update by assumption.
    rewrite !dict_get_set. reflexivity.
Qed.

(** *** Label resolution, continued *)

Lemma has_class_perm c (lbl lbl' : list Label) :
  lbl ≡ₚ lbl' -> has_class c lbl = has_class c lbl'.
Proof.
  intros Hperm. unfold has_class. apply bool_decide_ext. by rewrite Hperm.
Qed.

(** X7. An entry that contains one of the six priority classes resolves
    to the same value however its labels are ordered. *)
Theorem parse_label_order_free (lbl lbl' : list Label) :
  lbl ≡ₚ lbl' ->
  Exists (fun c => InL1 c ∈ lbl) priority_order ->
  parse_label lbl = parse_label lbl'.
Proof.
  intros Hperm Hex. unfold parse_label.
  rewrite <- (Permutation_length Hperm).
  rewrite <- !(has_class_perm _ _ _ Hperm).
  destruct (1 <? length lbl)%nat eqn:Hlen.
  - unfold priority_order in Hex.
    repeat match goal with
           | H : Exists _ (_ :: _) |- _ =>
               apply Exists_cons in H as [H%has_class_true | H];
               [rewrite ?H;
                repeat match goal with
                       | |- context [if has_class ?c lbl then _ else _] =>
                           destruct (has_class c lbl)
                       end; reflexivity |]
           end.
    by apply Exists_nil in Hex.
  - apply Nat.ltb_ge in Hlen.
    destruct lbl as [|l0 [|l1 rest]]; simpl in Hlen; try lia.
    + by apply Permutation_nil_l in Hperm as ->.
    + by apply Permutation_singleton_l in Hperm as ->.
Qed.

(** X8. [parse_labels] returns one value per entry, and the value for an
    entry is the value of one of the labels of that entry. *)
Theorem parse_labels_picks_a_label (labels : list (list Label)) vs :
  parse_labels labels = Ok vs ->
  length vs = length labels
  /\ Forall2 (fun lbl v => exists l, l ∈ lbl /\ v = value l) labels vs.
Proof.
  unfold parse_labels. rewrite parse_labels_loop_acc.
  destruct (result_map parse_label labels) as [vs'|e] eqn:Hmap;
    [| discriminate].
  simpl. intros [= <-]. apply result_map_Forall2 in Hmap.
  split; [symmetry; eapply Forall2_length; eassumption |].
  eapply Forall2_impl; [exact Hmap |].
  intros lbl v Hres%parse_label_sound.
  destruct Hres as [l0 | lbl before c after _ _ Hin _ | l0 rest _ _].
  - exists l0. split; [left | reflexivity].
  - exists (InL1 c). auto.
  - exists l0. split; [left | reflexivity].
Qed.

(** X9. The priority order knows the base enumeration only: an entry made
    of members of the refined enumeration resolves to its first label, also
    when it lists several. *)
Theorem parse_label_refined_only (lbl : list Label) :
  Forall (fun l => exists c, l = InL2 c) lbl ->
  parse_label lbl = first_value lbl.
Proof.
  intros Hall.
  assert (Hno : forall c, has_class c lbl = false).
  { intros c. apply has_class_false. intros Hin.
    rewrite Forall_forall in Hall. destruct (Hall _ Hin) as [c' Hc'].
    discriminate. }
  unfold parse_label. rewrite !Hno. by destruct (1 <? length lbl)%nat.
Qed.

(** *** The test harness, continued *)

(** The predictions that the loop of [test] returns: those it was given,
    then one per star, each from the answer of the variant for that star. *)
Lemma test_loop_preds self save save_func pairs :
  forall y_pred w w' preds,
    test_loop self save save_func pairs y_pred w = (w', Ok preds) ->
    exists news,
      preds = y_pred ++ news
      /\ Forall2 (fun pr p => predicted_from_answer self (fst pr) p) pairs news.
Proof.
  induction pairs as [|[features labels] pairs IH]; intros y_pred w w' preds.
  - simpl. unfold ret. intros [= <- <-]. exists [].
    rewrite app_nil_r. split; [reflexivity | constructor].
  - simpl. unfold bind at 1. unfold lift at 1.
    destruct (getitem features "priority") as [priority|e]; [| discriminate].
    unfold bind at 1. rewrite classify_run.
    destruct (do_classify self features) as [probs|e] eqn:Hdo;
      [| discriminate].
    destruct (check_results (level self) probs) as [[]|e] eqn:Hchk;
      [| discriminate].
    unfold bind at 1. unfold lift at 1.
    destruct (py_max probs) as [best|e] eqn:Hmax; [| discriminate].
    assert (Hp : predicted_from_answer self features (value best)).
    { destruct (py_max_spec probs best Hmax)
        as (before & v & after & Heq & Hlt & Hall).
      apply check_results_ok in Hchk. rewrite Forall_forall in Hchk.
      destruct (Hchk (best, v)) as [Hk Hv].
      { rewrite Heq. apply elem_of_app. right. left. }
      apply in_range_bool, orb_false_iff in Hv as [H0 H1].
      exists probs, before, best, v, after. repeat split; assumption. }
    unfold bind at 1. destruct save.
    + unfold bind at 1. unfold emit at 1. unfold call_save_func.
      destruct save_func as [[]|]; [| discriminate].
      intros Hrun. apply IH in Hrun as (news & -> & HF).
      exists (value best :: news). rewrite <- app_assoc.
      split; [reflexivity | by constructor].
    + unfold ret at 1.
      intros Hrun. apply IH in Hrun as (news & -> & HF).
      exists (value best :: news). rewrite <- app_assoc.
      split; [reflexivity | by constructor].
Qed.

(** X10. When the loop of [test] over the stars ends without an error, it
    returns one prediction per star, in the order of the stars, and the
    prediction for a star is the value of a key of the answer of the
    variant for that star: a member of the enumeration of the level of the
    classifier, with a probability that passed the range test of the
    contract (neither [< 0] nor [> 1] holds), such that every item before
    it in the answer has a strictly smaller probability or [nan], and no
    item of the answer has a probability above it. *)
Theorem prediction_in_taxonomy self save save_func pairs w w' preds :
  test_loop self save save_func pairs [] w = (w', Ok preds) ->
  Forall2 (fun pr prediction =>
             predicted_from_answer self (fst pr) prediction) pairs preds.
Proof.
  intros Hrun.
  apply test_loop_preds in Hrun as (news & -> & HF). exact HF.
Qed.

Ltac run_test :=
  repeat (progress
            (cbv beta iota delta [bind lift ret emit raise];
             cbn [cache figures saved trace fst snd])).

(** The loop of [test] leaves the cache and the images alone. *)
Lemma test_loop_frame self save save_func pairs :
  forall y_pred w,
    cache (fst (test_loop self save save_func pairs y_pred w)) = cache w
    /\ figures (fst (test_loop self save save_func pairs y_pred w))
       = figures w.
Proof.
  induction pairs as [|[features labels] pairs IH]; intros y_pred w.
  - split; reflexivity.
  - simpl test_loop. run_test.
    destruct (getitem features "priority") as [priority|e];
      [| split; reflexivity].
    rewrite classify_run. run_test.
    destruct (do_classify self features) as [probs|e];
      [| split; reflexivity].
    destruct (check_results (level self) probs) as [[]|e];
      [| split; reflexivity].
    destruct (py_max probs) as [best|e]; [| split; reflexivity].
    destruct save.
    + unfold call_save_func.
      destruct save_func as [[]|]; [| split; reflexivity].
      match goal with
      | |- context [test_loop _ _ _ _ ?yp ?w1] => destruct (IH yp w1) as [-> ->]
      end.
      split; reflexivity.
    + match goal with
      | |- context [test_loop _ _ _ _ ?yp ?w1] => destruct (IH yp w1) as [-> ->]
      end.
      split; reflexivity.
Qed.

(** What [test] does after the loop, for a test fraction above zero. *)
Lemma test_after_loop self tset save save_func w :
  Qle_bool (testfraction tset) 0 = false ->
  test self tset save save_func w
  = match test_loop self save save_func
            (zip (features_test tset) (labels_test tset (level self))) [] w
    with
    | (w1, Ok y_pred) =>
        let all_classes :=
          map (fun lbl => value (InL1 lbl)) StellarClasses_members in
        match result_map first_value (labels_test tset (level self)) with
        | Ok y_true =>
            match accuracy_score y_true y_pred with
            | Ok acc =>
                match confusion_matrix y_true y_pred all_classes with
                | Ok cf =>
                    savefig (confusion_matrix_path self tset)
                      {| fig_title :=
                           classifier_key self +:+ " - " +:+ key tset
                           +:+ " - " +:+ level_str (level self);
                         fig_matrix := cf;
                         fig_labels := all_classes |}
                      (add_events w1 [EvLogAccuracy (percent acc)])
                | Raise e =>
                    (add_events w1 [EvLogAccuracy (percent acc)], Raise e)
                end
            | Raise e => (w1, Raise e)
            end
        | Raise e => (w1, Raise e)
        end
    | (w1, Raise e) => (w1, Raise e)
    end.
Proof.
  intros Hq. unfold test. rewrite Hq. unfold bind at 1.
  destruct (test_loop self save save_func _ [] w) as [w1 [y_pred|e]];
    [| reflexivity].
  unfold bind at 1. unfold lift at 1.
  destruct (result_map first_value _) as [y_true|e]; [| reflexivity].
  unfold bind at 1. unfold lift at 1.
  destruct (accuracy_score y_true y_pred) as [acc|e]; [| reflexivity].
  unfold bind at 1. unfold emit at 1.
  unfold bind at 1. unfold lift at 1.
  destruct (confusion_matrix y_true y_pred _) as [cf|e]; reflexivity.
Qed.

(** X11. [test] never touches the feature cache, and it writes at most one
    image: when it raises, the images are as they were; when it returns, they
    are as they were or the image of the classifier, the split and the level
    has been (re)written, with the base classes as labels. *)
Theorem test_frame self tset save save_func w :
  cache (fst (test self tset save save_func w)) = cache w
  /\ (forall e, snd (test self tset save save_func w) = Raise e ->
                figures (fst (test self tset save save_func w)) = figures w)
  /\ (figures (fst (test self tset save save_func w)) = figures w
      \/ exists cf,
           figures (fst (test self tset save save_func w))
           = <[confusion_matrix_path self tset :=
                 {| fig_title :=
                      classifier_key self +:+ " - " +:+ key tset
                      +:+ " - " +:+ level_str (level self);
                    fig_matrix := cf;
                    fig_labels :=
                      map (fun c => value (InL1 c)) StellarClasses_members |}]>
               (figures w)).
Proof.
  destruct (Qle_bool (testfraction tset) 0) eqn:Hq.
  { unfold test. rewrite Hq. simpl. auto. }
  rewrite (test_after_loop _ _ _ _ _ Hq).
  pose proof (test_loop_frame self save save_func
                (zip (features_test tset) (labels_test tset (level self)))
                [] w) as [Hc Hf].
  destruct (test_loop self save save_func _ [] w) as [w1 [y_pred|e]];
    simpl in Hc, Hf; [| simpl; auto].
  cbv zeta.
  destruct (result_map first_value _) as [y_true|e]; [| simpl; auto].
  destruct (accuracy_score y_true y_pred) as [acc|e]; [| simpl; auto].
  destruct (confusion_matrix y_true y_pred _) as [cf|e]; [| simpl; auto].
  simpl. split; [assumption |]. split; [discriminate |].
  right. exists cf. by rewrite Hf.
Qed.

(** The loop over stars that classify well, followed by more stars. *)
Lemma test_loop_prefix self save save_func before answers rest :
  (save = true -> save_func = Some tt) ->
  Forall2 (fun pr a => classified self (fst pr) (fst a) (snd a)
                       /\ snd a <> []) before answers ->
  forall y_pred w,
  exists w' preds,
    test_loop self save save_func (before ++ rest) y_pred w
    = test_loop self save save_func rest (y_pred ++ preds) w'
    /\ length preds = length before
    /\ figures w' = figures w
    /\ saved w'
       = saved w
         ++ (if save
             then map (fun a => result_record self (fst a) (snd a)) answers
             else []).
Proof.
  intros Hsave HF.
  induction HF as [|[features labels] [priority probs] before answers
                     [Hcl Hne] HF IH]; intros y_pred w.
  - exists w, []. simpl. rewrite app_nil_r.
    repeat split. destruct save; simpl; by rewrite app_nil_r.
  - simpl in Hcl, Hne.
    destruct (py_max_nonempty probs Hne) as [best Hmax].
    simpl app.
    rewrite (test_loop_step _ _ _ _ _ _ _ _ _ _ _ Hcl Hmax Hsave).
    match goal with
    | |- context [test_loop _ _ _ (before ++ rest) ?yp ?w1] =>
        destruct (IH yp w1) as (w' & preds & Hrun & Hlen & Hfig & Hsaved)
    end.
    exists w', (value best :: preds). rewrite Hrun, <- app_assoc.
    split; [reflexivity |]. split; [simpl; by rewrite Hlen |].
    rewrite Hfig, Hsaved. destruct save; simpl.
    + split; [reflexivity |]. by rewrite <- app_assoc.
    + split; reflexivity.
Qed.

(** X12. With [save] set and a callback given, a run over a split whose
    stars all classify well hands one record per star to the callback, in
    the order of the split, each with the priority of its bundle and the
    answer of the variant; this holds whether or not the scoring after the
    loop succeeds. *)
Theorem test_saves_in_order self tset w answers :
  ~ (testfraction tset <= 0)%Q ->
  length (features_test tset) = length (labels_test tset (level self)) ->
  Forall2 (fun features a => classified self features (fst a) (snd a)
                             /\ snd a <> [])
    (features_test tset) answers ->
  saved (fst (test self tset true (Some tt) w))
  = saved w ++ map (fun a => result_record self (fst a) (snd a)) answers.
Proof.
  intros Hfrac Hlen HF.
  assert (Hq : Qle_bool (testfraction tset) 0 = false).
  { destruct (Qle_bool (testfraction tset) 0) eqn:E; [| reflexivity].
    apply Qle_bool_iff in E. contradiction. }
  rewrite (test_after_loop _ _ _ _ _ Hq).
  destruct (test_loop_prefix self true (Some tt)
              (zip (features_test tset) (labels_test tset (level self)))
              answers [] (fun _ => eq_refl)
              (Forall2_zip_fst _ _ _ _ Hlen HF) [] w)
    as (w' & preds & Hrun & _ & _ & Hsaved).
  rewrite app_nil_r in Hrun. rewrite Hrun. simpl test_loop. unfold ret.
  cbv zeta.
  destruct (result_map first_value _) as [y_true|e]; [| exact Hsaved].
  destruct (accuracy_score y_true _) as [acc|e]; [| exact Hsaved].
  destruct (confusion_matrix y_true _ _) as [cf|e]; exact Hsaved.
Qed.

(** X13. With [save] set and no callback given, [test] fails with a type
    error on the first star, after that star has been classified and
    before anything is saved. *)
Theorem test_save_without_callback self tset w features labels rest
    priority probs :
  ~ (testfraction tset <= 0)%Q ->
  zip (features_test tset) (labels_test tset (level self))
  = (features, labels) :: rest ->
  classified self features priority probs ->
  probs <> [] ->
  test self tset true None w
  = (add_events w [EvDoClassify features;
                   EvLogDebug (result_record self priority probs)],
     Raise TypeError).
Proof.
  intros Hfrac Hzip (Hprio & Hdo & Hchk) Hne.
  assert (Hq : Qle_bool (testfraction tset) 0 = false).
  { destruct (Qle_bool (testfraction tset) 0) eqn:E; [| reflexivity].
    apply Qle_bool_iff in E. contradiction. }
  destruct (py_max_nonempty probs Hne) as [best Hmax].
  rewrite (test_after_loop _ _ _ _ _ Hq), Hzip.
  simpl test_loop. run_test. rewrite Hprio, classify_run, Hdo, Hchk.
  run_test. rewrite Hmax. unfold call_save_func. run_test.
  unfold add_events, result_record. simpl. by rewrite <- app_assoc.
Qed.

(** X14. The first star on which the variant raises, or answers against
    the contract, ends the run with that error: no accuracy is logged and
    no image is written, while the stars before it have been handed to the
    callback when [save] is set. *)
Theorem test_aborts_at_first_failure self tset save save_func w
    before answers features labels rest priority e :
  ~ (testfraction tset <= 0)%Q ->
  (save = true -> save_func = Some tt) ->
  zip (features_test tset) (labels_test tset (level self))
  = before ++ (features, labels) :: rest ->
  Forall2 (fun pr a => classified self (fst pr) (fst a) (snd a)
                       /\ snd a <> []) before answers ->
  getitem features "priority" = Ok priority ->
  (do_classify self features = Raise e
   \/ exists probs, do_classify self features = Ok probs
                    /\ check_results (level self) probs = Raise e) ->
  snd (test self tset save save_func w) = Raise e
  /\ figures (fst (test self tset save save_func w)) = figures w
  /\ saved (fst (test self tset save save_func w))
     = saved w
       ++ (if save
           then map (fun a => result_record self (fst a) (snd a)) answers
           else []).
Proof.
  intros Hfrac Hsave Hzip HF Hprio Hfail.
  assert (Hq : Qle_bool (testfraction tset) 0 = false).
  { destruct (Qle_bool (testfraction tset) 0) eqn:E; [| reflexivity].
    apply Qle_bool_iff in E. contradiction. }
  rewrite (test_after_loop _ _ _ _ _ Hq), Hzip.
  destruct (test_loop_prefix self save save_func before answers
              ((features, labels) :: rest) Hsave HF [] w)
    as (w' & preds & Hrun & _ & Hfig & Hsaved).
  rewrite Hrun. simpl test_loop. run_test. rewrite Hprio, classify_run.
  run_test.
  destruct Hfail as [Hdo | (probs & Hdo & Hchk)]; rewrite Hdo, ?Hchk;
    simpl; auto.
Qed.

(** *** File names *)

Lemma append_inj_l (a x y : string) : a +:+ x = a +:+ y -> x = y.
Proof.
  induction a as [|c a IH]; [done |].
  intros H. apply IH. by injection H.
Qed.

Lemma os_path_join_inj (a b b' : string) :
  String.prefix "/" b = false ->
  String.prefix "/" b' = false ->
  os_path_join a b = os_path_join a b' ->
  b = b'.
Proof.
  unfold os_path_join. intros -> ->.
  destruct (String.eqb a ""); [done |].
  destruct (String.eqb _ "/").
  - apply append_inj_l.
  - intros H. by do 2 apply append_inj_l in H.
Qed.

(** X15. Two classifiers that share a data directory and differ in their
    class or in their level write the image of the same split to different
    files. *)
Theorem confusion_matrix_path_distinct self other tset :
  data_dir self = data_dir other ->
  variant self <> variant other \/ level self <> level other ->
  confusion_matrix_path self tset <> confusion_matrix_path other tset.
Proof.
  intros Hdir Hdiff Heq. unfold confusion_matrix_path in Heq.
  rewrite Hdir in Heq.
  apply os_path_join_inj in Heq; [| reflexivity | reflexivity].
  apply (append_inj_l "confusion_matrix_") in Heq.
  apply (append_inj_l (key tset)) in Heq.
  apply (append_inj_l "_") in Heq.
  unfold classifier_key in Heq.
  destruct (level self), (level other), (variant self), (variant other);
    cbv in Heq; try discriminate Heq;
    destruct Hdiff as [Hd | Hd]; by apply Hd.
Qed.

(** *** The status codes *)

(** X16. The seven status codes are pairwise different, and they are the
    integers from 0 to 6. *)
Theorem STATUS_value_unique :
  (forall a b, STATUS_value a = STATUS_value b -> a = b)
  /\ (forall z, (exists s, STATUS_value s = z) <-> (0 <= z <= 6)%Z).
Proof.
  split.
  - intros [] []; simpl; intros H; try reflexivity; discriminate H.
  - intros z. split.
    + intros [[] <-]; simpl; lia.
    + intros Hz.
      assert (Hcases : (z = 0 \/ z = 1 \/ z = 2 \/ z = 3 \/ z = 4 \/ z = 5
                        \/ z = 6)%Z) by lia.
      destruct Hcases as [-> | [-> | [-> | [-> | [-> | [-> | ->]]]]]].
      * by exists UNKNOWN.
      * by exists OK.
      * by exists ERROR.
      * by exists WARNING.
      * by exists ABORT.
      * by exists SKIPPED.
      * by exists STARTED.
Qed.

(** *** Construction *)

Section ConstructionProperties.
Context `{Sys : OS}.

Lemma level_of_string_Some level lvl :
  level_of_string level = Some lvl <-> level = level_str lvl.
Proof.
  unfold level_of_string.
  destruct (String.eqb level "L1") eqn:E1.
  { apply String.eqb_eq in E1 as ->. destruct lvl; simpl; split; congruence. }
  destruct (String.eqb level "L2") eqn:E2.
  { apply String.eqb_eq in E2 as ->. destruct lvl; simpl; split; congruence. }
  apply String.eqb_neq in E1, E2. destruct lvl; split; simpl; congruence.
Qed.

(** X17. A level other than L1 and L2 is refused before anything else is
    looked at or done: no directory is created. *)
Theorem init_invalid_level class_name method tset_key features_cache level
    plot dirs :
  level <> "L1" ->
  level <> "L2" ->
  init class_name method tset_key features_cache level plot dirs
  = (dirs, inl InvalidLevel).
Proof.
  intros H1 H2. unfold init, level_of_string.
  apply String.eqb_neq in H1, H2. by rewrite H1, H2.
Qed.

(** X18. A cache directory that does not exist is refused, whatever the
    class; by then the data directory of the classifier has been created.
    The check is made after that creation, so a cache directory equal to the
    data directory is accepted. *)
Theorem init_missing_cache_directory class_name method tset_key dir level lvl
    plot dirs :
  level_of_string level = Some lvl ->
  let created := makedirs (data_dir_of tset_key level) dirs in
  (dir_exists dir created = false ->
   init class_name method tset_key (Some dir) level plot dirs
   = (created, inl MissingCacheDirectory))
  /\ data_dir_of tset_key level ∈ created
  /\ (dir = data_dir_of tset_key level -> dir <> "" ->
      dir_exists dir created = true).
Proof.
  intros Hlvl created. split; [| split].
  - intros Hdir. unfold init. rewrite Hlvl. fold created. by rewrite Hdir.
  - unfold created, makedirs. apply elem_of_union. right.
    apply elem_of_list_to_set. left.
  - intros -> Hne. unfold dir_exists.
    apply String.eqb_neq in Hne. rewrite Hne. simpl.
    apply bool_decide_eq_true. unfold created, makedirs.
    apply elem_of_union. right. apply elem_of_list_to_set. left.
Qed.

(** X19. A classifier that [__init__] returns has the key that the table
    gives to its class, one of [base], [rfgc], [slosh], [xgb], [meta]; its
    level is L1 or L2 as asked; its data directory exists; and its cache
    directory, if it has one, exists and is not the empty path, so that
    the cache is in use exactly when a cache directory was given. *)
Theorem init_classifier class_name method tset_key features_cache level_name plot
    dirs dirs' self :
  init class_name method tset_key features_cache level_name plot dirs
  = (dirs', inr self) ->
  variant_of_name class_name = Some (variant self)
  /\ classifier_key self ∈ ["base"; "rfgc"; "slosh"; "xgb"; "meta"]
  /\ level_str (level self) = level_name
  /\ do_classify self = method
  /\ dirs' = makedirs (data_dir self) dirs
  /\ data_dir self ∈ dirs'
  /\ (forall dir, features_cache = Some dir -> dir <> "" /\ dir ∈ dirs')
  /\ cache_enabled self = bool_decide (is_Some features_cache).
Proof.
  unfold init.
  destruct (level_of_string level_name) as [lvl|] eqn:Hlvl; [| discriminate].
  apply level_of_string_Some in Hlvl.
  set (created := makedirs (data_dir_of tset_key level_name) dirs).
  assert (Hcreated : data_dir_of tset_key level_name ∈ created).
  { unfold created, makedirs. apply elem_of_union. right.
    apply elem_of_list_to_set. left. }
  assert (Hkey : forall v,
             classifier_key_of v ∈ ["base"; "rfgc"; "slosh"; "xgb"; "meta"]).
  { intros []; simpl; repeat constructor. }
  destruct features_cache as [dir|].
  - destruct (dir_exists dir created) eqn:Hdir; simpl; [| discriminate].
    destruct (variant_of_name class_name) as [v|]; [| discriminate].
    intros [= <- <-]. simpl.
    unfold dir_exists in Hdir. apply andb_true_iff in Hdir as [Hne Hin].
    apply negb_true_iff in Hne. apply bool_decide_eq_true in Hin.
    split; [reflexivity |]. split; [apply Hkey |].
    split; [by symmetry |]. split; [reflexivity |].
    split; [reflexivity |]. split; [assumption |]. split.
    + intros ? [= <-]. split; [| assumption]. intros ->. discriminate.
    + unfold cache_enabled. simpl. by rewrite Hne.
  - destruct (variant_of_name class_name) as [v|]; [| discriminate].
    intros [= <- <-]. simpl.
    split; [reflexivity |]. split; [apply Hkey |].
    split; [by symmetry |]. split; [reflexivity |].
    split; [reflexivity |]. split; [assumption |]. split.
    + intros ? [=].
    + reflexivity.
Qed.

End ConstructionProperties.

(** *** The dispatch on the file name *)

Lemma append_assoc (a b c : string) : (a +:+ b) +:+ c = a +:+ (b +:+ c).
Proof.
  induction a as [|x a IH]; [done |].
  exact (f_equal (String x) IH).
Qed.

Lemma substring_skip (a s : string) n m :
  String.substring (String.length a + n) m (a +:+ s) = String.substring n m s.
Proof. induction a as [|x a IH]; [done |]. exact IH. Qed.

Lemma endswith_append_short (stem tail suffix : string) :
  (String.length suffix <= String.length tail)%nat ->
  endswith (stem +:+ tail) suffix = endswith tail suffix.
Proof.
  intros Hlen. unfold endswith. rewrite string_length_append.
  replace (String.length stem + String.length tail - String.length suffix)%nat
    with (String.length stem
          + (String.length tail - String.length suffix))%nat by lia.
  rewrite substring_skip.
  assert (H1 : (String.length suffix
                <=? String.length stem + String.length tail)%nat = true)
    by (apply Nat.leb_le; lia).
  assert (H2 : (String.length suffix <=? String.length tail)%nat = true)
    by (by apply Nat.leb_le).
  by rewrite H1, H2.
Qed.

(** A name with a given ending has no suffix whose last part is not a
    suffix of that ending. *)
Lemma endswith_excluded (stem tail suffix a last : string) :
  suffix = a +:+ last ->
  endswith tail last = false ->
  (String.length last <= String.length tail)%nat ->
  endswith (stem +:+ tail) suffix = false.
Proof.
  intros -> Hno Hlen.
  destruct (endswith (stem +:+ tail) (a +:+ last)) eqn:E; [| reflexivity].
  apply endswith_spec in E as [pre Hpre].
  assert (Hlast : endswith (stem +:+ tail) last = true).
  { apply endswith_spec. exists (pre +:+ a). by rewrite append_assoc. }
  rewrite endswith_append_short in Hlast by assumption. congruence.
Qed.

(** X20. The reader is chosen by the ending of the file name: a name that
    ends in .fits or .fits.gz is opened as a FITS file and never parsed as a
    table; a name that ends in .noisy, .sysnoise, .txt or .clean is parsed
    as a table with [np.loadtxt].  The shape and the columns of the table
    are taken before the star identifier of the task is looked up: a table
    of fewer than two dimensions or fewer than three columns gives an index
    error whatever the task holds; a table of three columns or more gives
    the key error of the task that has no star identifier, and otherwise
    the [TessLightCurve] of its first three columns, with the fourth column
    as quality when there are exactly four columns and zeros, one per row,
    when not. *)
Theorem load_lightcurve_dispatch task stem w :
  (forall suffix,
      suffix ∈ [".fits"; ".fits.gz"] ->
      load_lightcurve task (stem +:+ suffix) w
      = (add_events w [EvFitsOpen (stem +:+ suffix)],
         TessLightCurve_of_fits (stem +:+ suffix)))
  /\ (forall suffix,
        suffix ∈ [".noisy"; ".sysnoise"; ".txt"; ".clean"] ->
        load_lightcurve task (stem +:+ suffix) w
        = (add_events w [EvLoadTxt (stem +:+ suffix)],
           match np_loadtxt (stem +:+ suffix) with
           | Ok data =>
               match ndarray_shape data with
               | nrows :: ncols :: _ =>
                   if (ncols <? 3)%nat then Raise IndexError
                   else
                     match getitem task "starid" with
                     | Ok starid =>
                         TessLightCurve
                           (ndarray_column data 0) (ndarray_column data 1)
                           (ndarray_column data 2)
                           (if (ncols =? 4)%nat
                            then np_asarray_int32 (ndarray_column data 3)
                            else np_zeros_int32 nrows)
                           starid
                     | Raise e => Raise e
                     end
               | _ => Raise IndexError
               end
           | Raise e => Raise e
           end)).
Proof.
  split.
  - intros suffix Hin. unfold load_lightcurve.
    assert (Htext : endswith (stem +:+ suffix) ".noisy"
                    || endswith (stem +:+ suffix) ".sysnoise"
                    || endswith (stem +:+ suffix) ".txt"
                    || endswith (stem +:+ suffix) ".clean" = false).
    { repeat (apply elem_of_cons in Hin as [-> | Hin]);
        [| | by apply elem_of_nil in Hin].
      - rewrite (endswith_excluded stem ".fits" ".noisy" ".nois" "y"),
          (endswith_excluded stem ".fits" ".sysnoise" ".sysnois" "e"),
          (endswith_excluded stem ".fits" ".txt" ".tx" "t"),
          (endswith_excluded stem ".fits" ".clean" ".clea" "n");
          solve [reflexivity | simpl; lia].
      - rewrite (endswith_excluded stem ".fits.gz" ".noisy" ".nois" "y"),
          (endswith_excluded stem ".fits.gz" ".sysnoise" ".sysnois" "e"),
          (endswith_excluded stem ".fits.gz" ".txt" ".tx" "t"),
          (endswith_excluded stem ".fits.gz" ".clean" ".clea" "n");
          solve [reflexivity | simpl; lia]. }
    rewrite Htext.
    assert (Hfits : endswith (stem +:+ suffix) ".fits"
                    || endswith (stem +:+ suffix) ".fits.gz" = true).
    { repeat (apply elem_of_cons in Hin as [-> | Hin]);
        [| | by apply elem_of_nil in Hin].
      - rewrite (proj2 (endswith_spec (stem +:+ ".fits") ".fits")) by eauto.
        reflexivity.
      - rewrite (proj2 (endswith_spec (stem +:+ ".fits.gz") ".fits.gz"))
          by eauto.
        apply orb_true_r. }
    rewrite Hfits. reflexivity.
  - intros suffix Hin. unfold load_lightcurve.
    assert (Htext : endswith (stem +:+ suffix) ".noisy"
                    || endswith (stem +:+ suffix) ".sysnoise"
                    || endswith (stem +:+ suffix) ".txt"
                    || endswith (stem +:+ suffix) ".clean" = true).
    { repeat (apply elem_of_cons in Hin as [-> | Hin]);
        [| | | | by apply elem_of_nil in Hin].
      - rewrite (proj2 (endswith_spec (stem +:+ ".noisy") ".noisy")) by eauto.
        reflexivity.
      - rewrite (proj2 (endswith_spec (stem +:+ ".sysnoise") ".sysnoise"))
          by eauto.
        by rewrite orb_true_r.
      - rewrite (proj2 (endswith_spec (stem +:+ ".txt") ".txt")) by eauto.
        by rewrite orb_true_r.
      - rewrite (proj2 (endswith_spec (stem +:+ ".clean") ".clean")) by eauto.
        by rewrite orb_true_r. }
    rewrite Htext. run_monad.
    destruct (np_loadtxt (stem +:+ suffix)) as [data|e]; [| reflexivity].
    rewrite lightcurve_of_table_run. reflexivity.
Qed.

(** *** The cache as a whole *)

(** X21. A call of [load_star] changes at most one cache file: the cache is
    as it was, or the call returned a bundle and the cache file of the
    priority of the task now holds exactly that bundle, all other files
    being as they were; the latter only for a classifier that has a cache
    directory and is not the meta classifier.  No call leaves an empty
    bundle in a cache that held none. *)
Theorem load_star_cache_write self task fname w :
  (cache (fst (load_star self task fname w)) = cache w
   \/ exists priority bundle,
        variant self <> MetaClassifier
        /\ cache_enabled self = true
        /\ getitem task "priority" = Ok priority
        /\ snd (load_star self task fname w) = Ok bundle
        /\ cache (fst (load_star self task fname w))
           = <[features_file self priority := bundle]> (cache w))
  /\ ((forall p b, cache w !! p = Some b -> b <> []) ->
      forall p b,
        cache (fst (load_star self task fname w)) !! p = Some b -> b <> []).
Proof.
  split; [| apply load_star_cache_nonempty].
  destruct (String.eqb (classifier_key self) "meta") eqn:Hkey.
  { left. unfold load_star. rewrite Hkey.
    run_monad.
    destruct (getitem task "priority"); [| reflexivity].
    destruct (getitem task "starid"); reflexivity. }
  assert (Hv : variant self <> MetaClassifier).
  { intros Hv%classifier_key_meta. congruence. }
  destruct (load_lightcurve_run task fname w w) as (evs & Hlc & _).
  destruct (snd (load_lightcurve task fname w)) as [lightcurve|e].
  2:{ left. unfold load_star. rewrite (not_meta _ Hv).
      cbv beta iota delta [bind lift ret negb]. by rewrite Hlc. }
  rewrite (load_star_after_lightcurve _ _ _ _ _ _ Hv Hlc).
  destruct (cache_enabled self) eqn:Hen.
  - destruct (getitem task "priority") as [priority|e] eqn:Hp;
      [| left; reflexivity].
    destruct (cache w !! features_file self priority) as [[|c cs]|] eqn:Hc.
    + run_loader Hc. rewrite bool_decide_true by eauto. run_loader Hc.
      rewrite (calc_features_run lightcurve _ w).
      destruct (snd (calc_features lightcurve w)) as [computed|e];
        [| left; reflexivity].
      run_monad.
      destruct (getitem task "starid") as [starid|e]; [| left; reflexivity].
      right. exists priority. eexists. run_monad. eauto 10.
    + left. run_loader Hc. rewrite bool_decide_true by eauto. run_loader Hc.
      destruct (getitem task "starid"); reflexivity.
    + run_loader Hc. rewrite bool_decide_false by (by intros [? ?]).
      run_loader Hc.
      rewrite (calc_features_run lightcurve _ w).
      destruct (snd (calc_features lightcurve w)) as [computed|e];
        [| left; reflexivity].
      run_monad.
      destruct (getitem task "starid") as [starid|e]; [| left; reflexivity].
      right. exists priority. eexists. run_monad. eauto 10.
  - left. run_monad.
    rewrite (calc_features_run lightcurve _ w).
    destruct (snd (calc_features lightcurve w)) as [computed|e];
      [| reflexivity].
    run_monad.
    destruct (getitem task "priority"); [| reflexivity].
    destruct (getitem task "starid"); reflexivity.
Qed.
End Properties.

(** ** The statements at concrete inputs *)

Module Checks.
Import Demo.

(** C1, where the code departs from it.  A variant of the base level
    answers [{SOLARLIKE: nan}].  The key is a member of the taxonomy and the
    value does not lie in [0,1], so that the claim has the probability
    error here; [classify] returns the mapping, because neither [nan < 0]
    nor [nan > 1] holds. *)
Lemma classify_accepts_nan :
  ~ Forall (valid_item L1) nan_probs
  /\ float_ltb NaN (Finite 0) = false
  /\ float_gtb NaN (Finite 1) = false
  /\ classify (answering L1 nan_probs) (bundle 1) world0
     = (add_events world0 [EvDoClassify (bundle 1)], Ok nan_probs).
Proof.
  split; [| repeat split].
  intros HF. apply Forall_cons in HF as [[_ Hv] _]. exact Hv.
Qed.

(** The contract on an answer that passes. *)
Example classify_accepts_solar :
  snd (classify always_solar (bundle 1) world0) = Ok solar_probs.
Proof.
  apply (classify_accepts always_solar (bundle 1) world0 solar_probs).
  - reflexivity.
  - repeat constructor; simpl; unfold Qle; simpl; lia.
Qed.

Example classify_foreign_key :
  snd (classify (answering L1 foreign_probs) (bundle 1) world0)
  = Raise (UnknownClass (InL2 rrlyr2)).
Proof. reflexivity. Qed.

Example classify_refined_level :
  snd (classify (answering L2 [(InL2 rrlyr2, Finite (1 # 4))]) (bundle 1)
         world0)
  = Ok [(InL2 rrlyr2, Finite (1 # 4))].
Proof. reflexivity. Qed.

Example classify_large_value :
  snd (classify (answering L1 large_probs) (bundle 1) world0)
  = Raise InvalidProbability.
Proof. reflexivity. Qed.

Example classify_negative_value :
  snd (classify (answering L1 negative_probs) (bundle 1) world0)
  = Raise InvalidProbability.
Proof. reflexivity. Qed.

Example parse_labels_eclipse_first :
  parse_labels [[InL1 solar; InL1 eclipse]; [InL1 gdor_spb; InL1 solar];
                [InL1 aperiodic; InL1 constant]; [InL2 rrlyr2]]
  = Ok ["eclipse"; "gamma-Dor/SPB"; "aperiodic"; "RRLyr"].
Proof. reflexivity. Qed.

Example py_max_tie : py_max tied_probs = Ok (InL1 solar).
Proof. reflexivity. Qed.

(** A split with test fraction zero. *)
Lemma test_without_testfraction_witness :
  test always_solar tset0 true (Some tt) world0
  = (add_events world0 [EvLogInfoNoTest], Ok tt).
Proof.
  apply (test_without_testfraction always_solar tset0 true (Some tt) world0).
  unfold Qle. simpl. lia.
Defined.

Lemma predicts_solar (priority : Z) :
  predicts always_solar (bundle priority) "solar-like".
Proof.
  exists (PInt priority), solar_probs, (@InL1 domain solar).
  repeat split; reflexivity.
Qed.

(** Three stars with ground truth A, B, A and a variant that always answers
    A: the accuracy is 2/3 and the cell of A on the diagonal is 2. *)
Lemma test_scores_witness :
  exists w' evs,
    test always_solar tset3 true (Some tt) world0 = (w', Ok tt)
    /\ trace w'
       = evs ++ [EvLogAccuracy (Some ((2 # 3) * 100)%Q);
                 EvSaveFig "/data/L1/demo/confusion_matrix_demo_L1_rfgc.png"]
    /\ fig_matrix <$> figures w' !! "/data/L1/demo/confusion_matrix_demo_L1_rfgc.png"
       = Some [[2; 0; 0; 0; 0; 0; 0; 0]; [1; 0; 0; 0; 0; 0; 0; 0];
               [0; 0; 0; 0; 0; 0; 0; 0]; [0; 0; 0; 0; 0; 0; 0; 0];
               [0; 0; 0; 0; 0; 0; 0; 0]; [0; 0; 0; 0; 0; 0; 0; 0];
               [0; 0; 0; 0; 0; 0; 0; 0]; [0; 0; 0; 0; 0; 0; 0; 0]]%nat.
Proof.
  destruct (test_scores always_solar tset3 true (Some tt) world0
              ["solar-like"; "solar-like"; "solar-like"]
              ["solar-like"; "eclipse"; "solar-like"])
    as (w' & evs & Hrun & Htrace & Hfig & _).
  - unfold Qle. simpl. lia.
  - reflexivity.
  - reflexivity.
  - repeat constructor; apply predicts_solar.
  - repeat constructor.
  - left. left.
  - exists w', evs. split; [exact Hrun |]. split; [exact Htrace |].
    change (confusion_matrix_path always_solar tset3)
      with "/data/L1/demo/confusion_matrix_demo_L1_rfgc.png" in Hfig.
    rewrite Hfig. reflexivity.
Defined.

(** At level L2 the matrix is still laid out over the eight base classes;
    the star whose true value is no base value is counted in no cell. *)
Example test_refined_level :
  let w' := fst (test refined tset_refined false None world0) in
  snd (test refined tset_refined false None world0) = Ok tt
  /\ trace w'
     = [EvDoClassify (bundle 1); EvDoClassify (bundle 2);
        EvLogAccuracy (Some ((1 # 2) * 100)%Q);
        EvSaveFig "/data/confusion_matrix_demo_L2_xgb.png"]
  /\ figures w' !! "/data/confusion_matrix_demo_L2_xgb.png"
     = Some {| fig_title := "xgb - demo - L2";
               fig_matrix :=
                 [[1; 0; 0; 0; 0; 0; 0; 0]; [0; 0; 0; 0; 0; 0; 0; 0];
                  [0; 0; 0; 0; 0; 0; 0; 0]; [0; 0; 0; 0; 0; 0; 0; 0];
                  [0; 0; 0; 0; 0; 0; 0; 0]; [0; 0; 0; 0; 0; 0; 0; 0];
                  [0; 0; 0; 0; 0; 0; 0; 0]; [0; 0; 0; 0; 0; 0; 0; 0]]%nat;
               fig_labels :=
                 ["solar-like"; "eclipse"; "RRLyr/Ceph"; "gamma-Dor/SPB";
                  "dSct/bCep"; "contact/rot"; "aperiodic"; "constant"] |}.
Proof. vm_compute. repeat split. Qed.

(** C5, where the code departs from it.  A variant of the base level
    answers the one star of the split, a solar-like star, with
    [{ECLIPSE: nan, SOLARLIKE: 0.5}].  The answer passes [classify], and
    the only probability that is a number is that of [SOLARLIKE]; the
    harness selects [ECLIPSE], the first key, because [0.5 > nan] does not
    hold.  The prediction it records is "eclipse": the accuracy logged is
    0, and the star is counted in the row of the solar-like class under the
    column of the eclipsing class. *)
Lemma test_selects_nan_class :
  snd (classify (answering L1 nan_first_probs) (bundle 1) world0)
  = Ok nan_first_probs
  /\ float_gtb (Finite (1 # 2)) NaN = false
  /\ py_max nan_first_probs = Ok (InL1 eclipse)
  /\ test_loop (answering L1 nan_first_probs) false None
       (zip (features_test tset1) (labels_test tset1 L1)) [] world0
     = (add_events world0 [EvDoClassify (bundle 1)], Ok ["eclipse"])
  /\ (let w' := fst (test (answering L1 nan_first_probs) tset1 false None
                       world0) in
      trace w'
      = [EvDoClassify (bundle 1); EvLogAccuracy (Some ((0 # 1) * 100)%Q);
         EvSaveFig "/data/confusion_matrix_demo_L1_xgb.png"]
      /\ fig_matrix <$> figures w' !! "/data/confusion_matrix_demo_L1_xgb.png"
         = Some [[0; 1; 0; 0; 0; 0; 0; 0]; [0; 0; 0; 0; 0; 0; 0; 0];
                 [0; 0; 0; 0; 0; 0; 0; 0]; [0; 0; 0; 0; 0; 0; 0; 0];
                 [0; 0; 0; 0; 0; 0; 0; 0]; [0; 0; 0; 0; 0; 0; 0; 0];
                 [0; 0; 0; 0; 0; 0; 0; 0]; [0; 0; 0; 0; 0; 0; 0; 0]]%nat).
Proof. vm_compute. repeat split. Qed.

(** With the two items in the other order [max] selects the solar-like
    class. *)
Example test_nan_last :
  py_max [(InL1 solar, Finite (1 # 2)); (InL1 eclipse, NaN)]
  = Ok (InL1 solar).
Proof. reflexivity. Qed.

(** A table of two columns, and a task with no star identifier: the index
    error of the missing third column comes first. *)
Example load_lightcurve_narrow_table :
  @load_lightcurve domain narrow [("priority", PInt 17)] "star4255.txt" world0
  = (add_events world0 [EvLoadTxt "star4255.txt"], Raise IndexError)
  /\ load_lightcurve [("priority", PInt 17)] "star4255.txt" world0
     = (add_events world0 [EvLoadTxt "star4255.txt"],
        Raise (KeyError "starid")).
Proof. split; reflexivity. Qed.

(** C6, as the specification words it, fails: the record that [test] hands
    to [save_func] has no field [classifier_key]; the key of the classifier
    is stored under [classifier]. *)
Lemma record_fields_counterexample :
  exists r,
    r ∈ saved (fst (test always_solar tset3 true (Some tt) world0))
    /\ dict_keys r = ["priority"; "classifier"; "status"; "starclass_results"]
    /\ dict_get r "classifier_key" = None
    /\ ~ (dict_keys r
          ≡ₚ ["priority"; "classifier_key"; "status"; "starclass_results"]).
Proof.
  exists (result_record always_solar (PInt 1) solar_probs).
  split; [left |]. split; [reflexivity |]. split; [reflexivity |].
  intros Hperm.
  assert (Hin : "classifier_key" ∈ dict_keys
                  (result_record always_solar (PInt 1) solar_probs)).
  { rewrite Hperm. right. left. }
  simpl in Hin.
  repeat (apply elem_of_cons in Hin as [Hin | Hin]; [discriminate |]).
  by apply elem_of_nil in Hin.
Qed.

(** An unknown suffix. *)
Lemma load_star_invalid_format_witness :
  load_star always_solar task17 "star4255.csv" world0
  = (world0, Raise InvalidFormat).
Proof.
  apply (load_star_invalid_format always_solar task17 "star4255.csv" world0).
  - discriminate.
  - repeat constructor.
Defined.

(** The meta classifier on a file that need not exist. *)
Lemma load_star_meta_witness :
  exists bundle,
    load_star meta task17 "absent.xyz" world0 = (world0, Ok bundle)
    /\ dict_keys bundle = ["priority"; "starid"; "tmag"; "ptp"].
Proof.
  destruct (load_star_meta meta task17 "absent.xyz" world0
              (PInt 17) (PInt 4255))
    as (bundle & Hrun & _ & Hkeys & _).
  { reflexivity. }
  { reflexivity. }
  { reflexivity. }
  exists bundle. split; [exact Hrun | exact Hkeys].
Defined.

(** The meta classifier with a cache directory configured. *)
Lemma load_star_meta_no_write_witness :
  fst (load_star meta task17 "absent.xyz" world_cached) = world_cached.
Proof.
  apply (load_star_meta_no_write meta task17 "absent.xyz" world_cached).
  reflexivity.
Defined.

(** A cache hit, and a miss that fills the cache. *)
Lemma load_star_cache_witness :
  load_star always_solar task17 "star4255.noisy" world_cached
  = (add_events world_cached
       [EvLoadTxt "star4255.noisy"; EvExists "/cache/features-17.pickle";
        EvLoadPickle "/cache/features-17.pickle"],
     Ok (with_task_fields task17 (PInt 17) (PInt 4255) (bundle 17)))
  /\ load_star always_solar task17 "star4255.noisy" world0
     = (bundle_saved
          (add_events world0
             [EvLoadTxt "star4255.noisy"; EvExists "/cache/features-17.pickle";
              EvCalcFeatures; EvLogDebug computed17])
          "/cache/features-17.pickle"
          (with_task_fields task17 (PInt 17) (PInt 4255) computed17),
        Ok (with_task_fields task17 (PInt 17) (PInt 4255) computed17)).
Proof.
  split.
  - destruct (load_star_cache always_solar task17 "star4255.noisy" world_cached
                (add_events world_cached [EvLoadTxt "star4255.noisy"])
                4%nat (PInt 17) (PInt 4255))
      as (Hhit & _).
    { discriminate. }
    { reflexivity. }
    { reflexivity. }
    { reflexivity. }
    { reflexivity. }
    apply (Hhit (bundle 17)); [reflexivity | discriminate].
  - destruct (load_star_cache always_solar task17 "star4255.noisy" world0
                (add_events world0 [EvLoadTxt "star4255.noisy"])
                4%nat (PInt 17) (PInt 4255))
      as (_ & Hmiss & _).
    { discriminate. }
    { reflexivity. }
    { reflexivity. }
    { reflexivity. }
    { reflexivity. }
    apply (Hmiss computed17); reflexivity.
Defined.

(** C9, as the specification words it, fails: the cache file of the
    priority exists, and yet [calc_features] is called and the file is
    written again, because the bundle it holds is empty. *)
Lemma cache_file_counterexample :
  is_Some (cache world_empty_bundle !! features_file always_solar (PInt 17))
  /\ trace (fst (load_star always_solar task17 "star4255.noisy"
                   world_empty_bundle))
     = [EvLoadTxt "star4255.noisy"; EvExists "/cache/features-17.pickle";
        EvLoadPickle "/cache/features-17.pickle"; EvCalcFeatures;
        EvLogDebug computed17; EvSavePickle "/cache/features-17.pickle"]
  /\ EvCalcFeatures
     ∈ trace (fst (load_star always_solar task17 "star4255.noisy"
                     world_empty_bundle)).
Proof.
  assert (Htrace :
    trace (fst (load_star always_solar task17 "star4255.noisy"
                  world_empty_bundle))
    = [EvLoadTxt "star4255.noisy"; EvExists "/cache/features-17.pickle";
       EvLoadPickle "/cache/features-17.pickle"; EvCalcFeatures;
       EvLogDebug computed17; EvSavePickle "/cache/features-17.pickle"]).
  { vm_compute. reflexivity. }
  split; [| split].
  - exists []. vm_compute. reflexivity.
  - exact Htrace.
  - rewrite Htrace. do 3 right. left.
Qed.

(** *** Further properties at concrete inputs *)

(** A stale cached bundle: the priority and the magnitude of the task
    replace the cached ones, the cached variance stays. *)
Lemma load_star_task_fields_witness :
  let bundle := with_task_fields task17 (PInt 17) (PInt 4255) stale_bundle in
  snd (load_star always_solar task17 "star4255.noisy" world_stale) = Ok bundle
  /\ dict_get bundle "priority" = Some (PInt 17)
  /\ dict_get bundle "tmag" = Some (PFloat (Finite (21 # 2)))
  /\ dict_get bundle "variance" = Some (PFloat (Finite (7 # 2))).
Proof.
  intros bundle.
  assert (Hrun : snd (load_star always_solar task17 "star4255.noisy"
                        world_stale) = Ok bundle) by reflexivity.
  destruct (load_star_task_fields always_solar task17 "star4255.noisy"
              world_stale bundle Hrun) as (Hp & _ & _ & _ & Hk).
  split; [exact Hrun |]. split; [exact Hp |]. split; [| reflexivity].
  apply (Hk "tmag"); [left | reflexivity].
Defined.

(** A second variant finds what the first one cached. *)
Lemma load_star_cache_reuse_witness :
  exists evs,
    load_star slosh task17 "star4255.noisy"
      (fst (load_star always_solar task17 "star4255.noisy" world0))
    = (add_events (fst (load_star always_solar task17 "star4255.noisy" world0))
         evs,
       Ok (with_task_fields task17 (PInt 17) (PInt 4255) computed17)).
Proof.
  destruct (load_star_cache_reuse always_solar slosh task17 "star4255.noisy"
              world0
              (fst (load_star always_solar task17 "star4255.noisy" world0))
              (with_task_fields task17 (PInt 17) (PInt 4255) computed17))
    as (evs & Hrun & _).
  { discriminate. }
  { discriminate. }
  { reflexivity. }
  { reflexivity. }
  { reflexivity. }
  exists evs. exact Hrun.
Defined.

(** A classifier without cache directory in a world with a cached bundle. *)
Lemma load_star_without_cache_witness :
  cache (fst (load_star (answering L1 solar_probs) task17 "star4255.noisy"
                world_cached))
  = cache world_cached.
Proof.
  apply (load_star_without_cache (answering L1 solar_probs) task17
           "star4255.noisy" world_cached
           (add_events world_cached [EvLoadTxt "star4255.noisy"]) 4%nat).
  - discriminate.
  - reflexivity.
  - reflexivity.
Defined.

Lemma load_star_missing_priority_witness :
  load_star meta task_without_priority "absent.xyz" world_cached
  = (world_cached, Raise (KeyError "priority")).
Proof.
  apply (load_star_missing_priority meta task_without_priority "absent.xyz"
           world_cached).
  - reflexivity.
  - reflexivity.
Defined.

(** The table cannot be read, and the cache holds a bundle for the task. *)
Lemma load_star_unreadable_file_witness :
  @load_star domain unreadable always_solar task17 "star4255.noisy"
    world_cached
  = (add_events world_cached [EvLoadTxt "star4255.noisy"],
     Raise (ExternalError 2)).
Proof.
  apply (@load_star_unreadable_file domain unreadable always_solar task17
           "star4255.noisy" world_cached).
  - discriminate.
  - reflexivity.
Defined.

Lemma calc_features_bundle_witness :
  exists features,
    @calc_features domain external 4%nat world0
    = (add_events world0 [EvCalcFeatures], Ok features)
    /\ dict_get features "Fp07" = Some (PFloat (Finite (1 # 5))).
Proof.
  destruct (@calc_features_bundle domain external 4%nat 4%nat 5%nat
              [("freq1", PFloat (Finite (3 # 2)))] [("Fp07", PFloat (Finite (1 # 5)))] world0)
    as (features & Hrun & _ & Hget).
  { reflexivity. }
  { reflexivity. }
  { reflexivity. }
  { reflexivity. }
  { repeat constructor. intros Hin. by apply elem_of_nil in Hin. }
  { repeat constructor. intros Hin. by apply elem_of_nil in Hin. }
  exists features. split; [exact Hrun |]. rewrite Hget. reflexivity.
Defined.

Lemma parse_label_order_free_witness :
  parse_label solar_eclipse = parse_label eclipse_solar.
Proof.
  apply parse_label_order_free.
  - apply perm_swap.
  - left. right. left.
Defined.

Lemma parse_labels_picks_a_label_witness :
  Forall2 (fun lbl v => exists l, l ∈ lbl /\ v = value l)
    mixed_entries ["gamma-Dor/SPB"; "RRLyr"].
Proof.
  apply (parse_labels_picks_a_label mixed_entries ["gamma-Dor/SPB"; "RRLyr"]).
  reflexivity.
Defined.

Lemma parse_label_refined_only_witness :
  parse_label refined_entry = Ok "RRLyr".
Proof.
  apply (parse_label_refined_only refined_entry).
  repeat constructor; eauto.
Defined.

Lemma prediction_in_taxonomy_witness :
  Forall2 (fun pr prediction =>
             predicted_from_answer always_solar (fst pr) prediction)
    (zip (features_test tset3) (labels_test tset3 L1))
    ["solar-like"; "solar-like"; "solar-like"].
Proof.
  apply (prediction_in_taxonomy always_solar false None
           (zip (features_test tset3) (labels_test tset3 L1)) world0
           (add_events world0
              [EvDoClassify (bundle 1); EvDoClassify (bundle 2);
               EvDoClassify (bundle 3)])).
  reflexivity.
Defined.

Lemma test_saves_in_order_witness :
  saved (fst (test always_solar tset3 true (Some tt) world0))
  = [result_record always_solar (PInt 1) solar_probs;
     result_record always_solar (PInt 2) solar_probs;
     result_record always_solar (PInt 3) solar_probs].
Proof.
  apply (test_saves_in_order always_solar tset3 world0
           [(PInt 1, solar_probs); (PInt 2, solar_probs);
            (PInt 3, solar_probs)]).
  - unfold Qle. simpl. lia.
  - reflexivity.
  - repeat constructor; discriminate.
Defined.

Lemma test_save_without_callback_witness :
  test always_solar tset3 true None world0
  = (add_events world0
       [EvDoClassify (bundle 1);
        EvLogDebug (result_record always_solar (PInt 1) solar_probs)],
     Raise TypeError).
Proof.
  apply (test_save_without_callback always_solar tset3 world0 (bundle 1)
           [@InL1 domain solar]
           [(bundle 2, [@InL1 domain eclipse]); (bundle 3, [@InL1 domain solar])]).
  - unfold Qle. simpl. lia.
  - reflexivity.
  - repeat split; reflexivity.
  - discriminate.
Defined.

(** The second of three stars is answered with a probability of 3/2. *)
Lemma test_aborts_at_first_failure_witness :
  snd (test picky tset3 true (Some tt) world0) = Raise InvalidProbability
  /\ figures (fst (test picky tset3 true (Some tt) world0)) = ∅
  /\ saved (fst (test picky tset3 true (Some tt) world0))
     = [result_record picky (PInt 1) solar_probs].
Proof.
  apply (test_aborts_at_first_failure picky tset3 true (Some tt) world0
           [(bundle 1, [@InL1 domain solar])] [(PInt 1, solar_probs)]
           (bundle 2) [@InL1 domain eclipse] [(bundle 3, [@InL1 domain solar])] (PInt 2)).
  - unfold Qle. simpl. lia.
  - reflexivity.
  - reflexivity.
  - repeat constructor; discriminate.
  - reflexivity.
  - right. exists large_probs. split; reflexivity.
Defined.

Lemma confusion_matrix_path_distinct_witness :
  confusion_matrix_path always_solar tset3
  <> confusion_matrix_path slosh tset3.
Proof.
  apply confusion_matrix_path_distinct.
  - reflexivity.
  - left. discriminate.
Defined.

Lemma init_invalid_level_witness :
  init "RFGCClassifier" do_classify_base None (Some "/cache") "L3" false ∅
  = (∅, inl InvalidLevel).
Proof.
  apply init_invalid_level; discriminate.
Defined.

(** The cache directory is missing; the data directory has been made. *)
Lemma init_missing_cache_directory_witness :
  init "RFGCClassifier" do_classify_base None (Some "/cache") "L1" false ∅
  = (makedirs "/opt/starclass/data/L1" ∅, inl MissingCacheDirectory).
Proof.
  destruct (init_missing_cache_directory "RFGCClassifier" do_classify_base
              None "/cache" "L1" L1 false ∅) as (Hrun & _).
  { reflexivity. }
  apply Hrun. reflexivity.
Defined.

Lemma init_classifier_witness :
  let self :=
    {| variant := XGBClassifier; tset_key := Some "demo"; plot := false;
       level := L2; features_cache := Some "/cache";
       data_dir := "/opt/starclass/data/L2/demo";
       do_classify := do_classify_base |} in
  classifier_key self ∈ ["base"; "rfgc"; "slosh"; "xgb"; "meta"]
  /\ cache_enabled self = true.
Proof.
  intros self.
  destruct (init_classifier "XGBClassifier" do_classify_base (Some "demo")
              (Some "/cache") "L2" false {[ "/cache" ]}
              (makedirs "/opt/starclass/data/L2/demo" {[ "/cache" ]}) self)
    as (_ & Hkey & _ & _ & _ & _ & _ & Hen).
  { reflexivity. }
  split; [exact Hkey | exact Hen].
Defined.

End Checks.
